(** * gomon: a shallow embedding of the site monitor and its properties

    The development follows [gomon.go]: the configuration record and the
    monitor factory ([NewMonitor], [sanitizeURL]), the status classifier
    ([isSuccessStatus]), the check executor ([Check]) and the certificate
    inspection ([certInfo]).

    The Go standard library (net/url, net/http, crypto/x509, time, fmt) is
    not part of the repository.  Its pure functions are collected in the
    class [GoLib]; what the outside world answers during a check (clock
    readings, the HTTP round trip, the trust store, chain verification) is
    collected in the record [Env].  Every property is proved for all
    libraries and all environments; the module [Ref] gives one executable
    instance that is used for the concrete examples. *)

From Stdlib Require Import ZArith String Ascii List Lia Bool.
From stdpp Require Import base option list strings gmap pretty.

Local Open Scope string_scope.
Local Open Scope Z_scope.
Local Open Scope list_scope.

(** ** Errors

    A Go [error] value is either a plain error with its text (package
    errors) or an error built by [fmt.Errorf] with the verb [%w], which has
    a text and the error it wraps. *)

Inductive error : Type :=
| errorString (msg : string)
| wrapError (msg : string) (err : error).

Definition error_Error (e : error) : string :=
  match e with errorString msg | wrapError msg _ => msg end.

Definition error_Unwrap (e : error) : option error :=
  match e with errorString _ => None | wrapError _ err => Some err end.

(** [errors.New] and [fmt.Errorf] without [%w]. *)
Definition errors_New (msg : string) : error := errorString msg.

(** [fmt.Errorf(prefix + "%w", err)]: the text is the prefix followed by the
    text of [err], and [err] is what [Unwrap] gives back. *)
Definition fmt_Errorf_w (prefix : string) (err : error) : error :=
  wrapError (prefix +:+ error_Error err) err.

(** ** Time

    A [time.Time] carries a wall-clock reading and, when it comes from
    [time.Now], a monotonic reading.  Both are in nanoseconds. *)

Definition Duration : Type := Z.

Definition time_Second : Duration := 1000000000.

Definition minInt64 : Z := - 2 ^ 63.
Definition maxInt64 : Z := 2 ^ 63 - 1.

(** Two's complement wrap-around of a 64-bit signed integer. *)
Definition wrap64 (z : Z) : Z := (z + 2 ^ 63) mod 2 ^ 64 - 2 ^ 63.

Record time_Time : Type := mkTime {
  Time_wall : Z;
  Time_mono : option Z
}.

(** The zero value of [time.Time] (January 1, year 1, no monotonic reading),
    in nanoseconds relative to the Unix epoch. *)
Definition time_zero : time_Time :=
  {| Time_wall := -62135596800 * 1000000000; Time_mono := None |}.

(** [t.Before(u)]: on the monotonic readings when both have one, on the wall
    clock otherwise. *)
Definition Time_Before (t u : time_Time) : bool :=
  match Time_mono t, Time_mono u with
  | Some a, Some b => a <? b
  | _, _ => Time_wall t <? Time_wall u
  end.

Definition Time_After (t u : time_Time) : bool :=
  match Time_mono t, Time_mono u with
  | Some a, Some b => b <? a
  | _, _ => Time_wall u <? Time_wall t
  end.

(** [subMono] of package time: the 64-bit difference, saturated. *)
Definition subMono (t u : Z) : Duration :=
  let d := wrap64 (t - u) in
  if (d <? 0) && (u <? t) then maxInt64
  else if (0 <? d) && (t <? u) then minInt64
  else d.

(** The value of a [Duration] that is nearest to [z]. *)
Definition saturate64 (z : Z) : Duration :=
  Z.max minInt64 (Z.min maxInt64 z).

(** [t.Sub(u)]: on the monotonic readings when both have one; otherwise the
    difference of the wall clocks, or the largest or smallest duration when
    the difference does not fit. *)
Definition Time_Sub (t u : time_Time) : Duration :=
  match Time_mono t, Time_mono u with
  | Some a, Some b => subMono a b
  | _, _ => saturate64 (Time_wall t - Time_wall u)
  end.

(** [t.UnixNano()], an int64. *)
Definition Time_UnixNano (t : time_Time) : Z := wrap64 (Time_wall t).

(** ** URLs, requests and responses (the data of net/url and net/http) *)

Record Userinfo : Type := mkUserinfo {
  Userinfo_username : string;
  Userinfo_password : option string
}.

Record url_URL : Type := mkURL {
  URL_Scheme : string;
  URL_Opaque : string;
  URL_User : option Userinfo;
  URL_Host : string;
  URL_Path : string;
  URL_RawPath : string;
  URL_OmitHost : bool;
  URL_ForceQuery : bool;
  URL_RawQuery : string;
  URL_Fragment : string;
  URL_RawFragment : string
}.

(** The assignment [u.RawQuery = q]. *)
Definition URL_set_RawQuery (u : url_URL) (q : string) : url_URL :=
  {| URL_Scheme := URL_Scheme u; URL_Opaque := URL_Opaque u;
     URL_User := URL_User u; URL_Host := URL_Host u;
     URL_Path := URL_Path u; URL_RawPath := URL_RawPath u;
     URL_OmitHost := URL_OmitHost u; URL_ForceQuery := URL_ForceQuery u;
     URL_RawQuery := q;
     URL_Fragment := URL_Fragment u; URL_RawFragment := URL_RawFragment u |}.

(** A [context.Context] as far as a caller can build one. *)
Inductive Context : Type :=
| context_nil
| context_Background
| context_WithCancel (parent : Context)
| context_WithTimeout (parent : Context) (d : Duration).

(** [http.Header] is a map from canonical keys to lists of values. *)
Abbreviation http_Header := (gmap string (list string)).

Record http_Request : Type := mkRequest {
  Request_ctx : Context;
  Request_Method : string;
  Request_URL : url_URL;
  Request_Header : http_Header;
  Request_Host : string
}.

Definition Request_set_Header (r : http_Request) (h : http_Header)
  : http_Request :=
  {| Request_ctx := Request_ctx r; Request_Method := Request_Method r;
     Request_URL := Request_URL r; Request_Header := h;
     Request_Host := Request_Host r |}.

Definition Request_set_URL (r : http_Request) (u : url_URL) : http_Request :=
  {| Request_ctx := Request_ctx r; Request_Method := Request_Method r;
     Request_URL := u; Request_Header := Request_Header r;
     Request_Host := Request_Host r |}.

(** ** Certificates (the data of crypto/x509 and crypto/tls) *)

(** A [pkix.Name] as its list of attribute/value pairs. *)
Definition pkix_Name : Type := list (string * string).

Record x509_Certificate : Type := mkCertificate {
  Certificate_Subject : pkix_Name;
  Certificate_Issuer : pkix_Name;
  Certificate_NotBefore : time_Time;
  Certificate_NotAfter : time_Time;
  Certificate_DNSNames : list string
}.

Definition x509_CertPool : Type := list x509_Certificate.

Definition x509_NewCertPool : x509_CertPool := [].

Definition CertPool_AddCert (p : x509_CertPool) (c : x509_Certificate)
  : x509_CertPool := (p ++ [c])%list.

Record x509_VerifyOptions : Type := mkVerifyOptions {
  VerifyOptions_DNSName : string;
  VerifyOptions_Roots : x509_CertPool;
  VerifyOptions_Intermediates : x509_CertPool
}.

Record tls_ConnectionState : Type := mkConnectionState {
  ConnectionState_PeerCertificates : list x509_Certificate
}.

(** A response body as the reader sees it: the bytes delivered, and the
    error that ended the stream if it was not a clean end of file. *)
Record http_Body : Type := mkBody {
  Body_data : string;
  Body_err : option error
}.

Record http_Response : Type := mkResponse {
  Response_StatusCode : Z;
  Response_Body : http_Body;
  Response_TLS : option tls_ConnectionState;
  Response_Request : http_Request
}.

(** ** The library interface

    The pure functions of the Go standard library that the package calls.
    [url_Parse] returns either the parsed URL or the parse error. *)

Class GoLib : Type := {
  url_Parse : string -> url_URL + error;
  URL_String : url_URL -> string;
  URL_Hostname : url_URL -> string;
  (** the verb [%q] on a string *)
  strconv_Quote : string -> string;
  (** the verb [%s] on a [time.Time] *)
  Time_String : time_Time -> string;
  Name_String : pkix_Name -> string;
  http_NewRequestWithContext :
    Context -> string -> string -> http_Request + error
}.

(** [textproto.CanonicalMIMEHeaderKey] on the keys the package uses: a key
    made of letters and hyphens gets an upper-case letter at the start and
    after each hyphen and lower-case letters elsewhere; a key with any other
    byte outside the token alphabet is left alone. *)

Definition is_upper (c : ascii) : bool :=
  (65 <=? Z.of_nat (nat_of_ascii c)) && (Z.of_nat (nat_of_ascii c) <=? 90).
Definition is_lower (c : ascii) : bool :=
  (97 <=? Z.of_nat (nat_of_ascii c)) && (Z.of_nat (nat_of_ascii c) <=? 122).
Definition is_digit (c : ascii) : bool :=
  (48 <=? Z.of_nat (nat_of_ascii c)) && (Z.of_nat (nat_of_ascii c) <=? 57).
Definition to_upper (c : ascii) : ascii :=
  if is_lower c then ascii_of_nat (nat_of_ascii c - 32) else c.
Definition to_lower (c : ascii) : ascii :=
  if is_upper c then ascii_of_nat (nat_of_ascii c + 32) else c.

Definition mem_ascii (c : ascii) (s : string) : bool :=
  existsb (Ascii.eqb c) (list_ascii_of_string s).

(** [validHeaderFieldByte]: the token characters of RFC 7230. *)
Definition validHeaderFieldByte (c : ascii) : bool :=
  is_upper c || is_lower c || is_digit c || mem_ascii c "!#$%&'*+-.^_`|~".

Fixpoint canonical_go (upper : bool) (s : string) : string :=
  match s with
  | EmptyString => EmptyString
  | String c rest =>
      String (if upper then to_upper c else to_lower c)
             (canonical_go (Ascii.eqb c "-") rest)
  end.

Definition CanonicalMIMEHeaderKey (s : string) : string :=
  if forallb validHeaderFieldByte (list_ascii_of_string s)
  then canonical_go true s else s.

(** [h.Set(key, value)]. *)
Definition Header_Set (h : http_Header) (key value : string) : http_Header :=
  <[CanonicalMIMEHeaderKey key := [value]]> h.

(** [h.Get(key)]: the first value under the canonical key, or the empty
    string. *)
Definition Header_Get (h : http_Header) (key : string) : string :=
  match h !! CanonicalMIMEHeaderKey key with
  | Some (v :: _) => v
  | _ => ""
  end.

(** ** The package's data (gomon.go, lines 16-52) *)

Record Config : Type := mkConfig {
  Config_URL : string;
  Config_Method : string;
  Config_RequestTimeout : Duration;
  Config_IgnoreCert : bool;
  Config_DontFollowRedirect : bool;
  Config_UpStatusCodes : list Z;
  Config_Headers : http_Header
}.

Record tls_Config : Type := mkTLSConfig {
  TLSConfig_InsecureSkipVerify : bool
}.

Record http_Transport : Type := mkTransport {
  Transport_TLSClientConfig : tls_Config
}.

(** The redirect policy of a client: [None] is the nil function (the
    client's default policy), [Some f] a policy of the caller. *)
Definition RedirectPolicy : Type :=
  http_Request -> list http_Request -> option error.

Record http_Client : Type := mkClient {
  Client_Timeout : Duration;
  Client_Transport : http_Transport;
  Client_CheckRedirect : option RedirectPolicy
}.

Record Monitor : Type := mkMonitor {
  Monitor_client : http_Client;
  Monitor_config : Config
}.

Record CertInfo : Type := mkCertInfo {
  CertInfo_Subject : string;
  CertInfo_Issuer : string;
  CertInfo_ValidFrom : time_Time;
  CertInfo_ValidTo : time_Time;
  CertInfo_DNSNames : list string;
  CertInfo_IsValid : bool;
  CertInfo_ErrorMsg : string
}.

Record CheckResult : Type := mkCheckResult {
  CheckResult_URL : string;
  CheckResult_StatusCode : Z;
  CheckResult_Start : time_Time;
  CheckResult_End : time_Time;
  CheckResult_CertInfo : option CertInfo
}.

(** [http.ErrUseLastResponse]. *)
Definition http_ErrUseLastResponse : error :=
  errors_New "net/http: use last response".

(** noRedirect disables HTTP redirects (line 55). *)
Definition noRedirect : RedirectPolicy :=
  fun req via => Some http_ErrUseLastResponse.

Section Factory.
Context `{GoLib}.

(** sanitizeURL validates and returns a sanitized URL string (line 100).
    The Go function returns the pair (string, error). *)
Definition sanitizeURL (rawURL : string) : string * option error :=
  match url_Parse rawURL with
  | inr err => ("", Some err)
  | inl parsedURL =>
      if decide (URL_Scheme parsedURL = "") then
        ("", Some (errors_New ("missing scheme " +:+ strconv_Quote rawURL)))
      else if decide (URL_Host parsedURL = "") then
        ("", Some (errors_New ("missing host " +:+ strconv_Quote rawURL)))
      else (URL_String parsedURL, None)
  end.

(** NewMonitor creates and configures a new monitor (line 60).  The Go
    function returns a pointer to a Monitor and an error. *)
Definition NewMonitor (config : Config) : option Monitor * option error :=
  let timeout :=
    if decide (Config_RequestTimeout config = 0)
    then 10 * time_Second else Config_RequestTimeout config in
  let codes :=
    if decide (length (Config_UpStatusCodes config) = 0%nat)
    then [200; 201] else Config_UpStatusCodes config in
  if decide (Config_Method config = "") then
    (None, Some (errors_New "missing HTTP method"))
  else if decide (timeout < 0) then
    (None, Some (errors_New "negative timeout"))
  else
    match sanitizeURL (Config_URL config) with
    | (_, Some err) => (None, Some (fmt_Errorf_w "invalid URL: " err))
    | (validURL, None) =>
        let config' :=
          {| Config_URL := validURL;
             Config_Method := Config_Method config;
             Config_RequestTimeout := timeout;
             Config_IgnoreCert := Config_IgnoreCert config;
             Config_DontFollowRedirect := Config_DontFollowRedirect config;
             Config_UpStatusCodes := codes;
             Config_Headers := Config_Headers config |} in
        let client :=
          {| Client_Timeout := timeout;
             Client_Transport :=
               {| Transport_TLSClientConfig :=
                    {| TLSConfig_InsecureSkipVerify :=
                         Config_IgnoreCert config |} |};
             Client_CheckRedirect :=
               if Config_DontFollowRedirect config
               then Some noRedirect else None |} in
        (Some {| Monitor_client := client; Monitor_config := config' |},
         None)
    end.
End Factory.

(** isSuccessStatus determines if a status code is acceptable based on the
    configuration (line 118). *)
Definition Monitor_isSuccessStatus (m : Monitor) (code : Z) : bool :=
  if decide (length (Config_UpStatusCodes (Monitor_config m)) = 0%nat) then
    (200 <=? code) && (code <? 300)
  else
    existsb (Z.eqb code) (Config_UpStatusCodes (Monitor_config m)).

(** ** Effects

    A check talks to the outside world: it reads the clock, performs one
    HTTP round trip, drains and closes the response body, loads the system
    trust store and verifies a certificate chain.  What the world answers is
    an [Env]; what the code did, in order, is the trace of a [World]. *)

Inductive Event : Type :=
| EvNow (t : time_Time)
| EvDo (c : http_Client) (req : http_Request)
| EvCopy (b : http_Body)
| EvClose (b : http_Body)
| EvSystemCertPool
| EvVerify (leaf : x509_Certificate) (opts : x509_VerifyOptions).

Record World : Type := mkWorld {
  World_ticks : nat;
  World_trace : list Event
}.

Definition World_init : World := {| World_ticks := 0; World_trace := [] |}.

Record Env : Type := mkEnv {
  (** the n-th reading of [time.Now] *)
  Env_clock : nat -> time_Time;
  (** [client.Do]: a response or a transport error *)
  Env_Do : http_Client -> http_Request -> http_Response + error;
  (** [x509.SystemCertPool] *)
  Env_SystemCertPool : x509_CertPool + error;
  (** [cert.Verify(opts)]: [None] when a chain was found *)
  Env_Verify : x509_Certificate -> x509_VerifyOptions -> option error
}.

(** A call either returns or panics. *)
Inductive Outcome (A : Type) : Type :=
| Returned (a : A)
| Panicked (msg : string).
Arguments Returned {A} a.
Arguments Panicked {A} msg.

Definition M (A : Type) : Type := World -> Outcome A * World.

Definition ret {A} (a : A) : M A := fun w => (Returned a, w).

Definition bind {A B} (c : M A) (k : A -> M B) : M B :=
  fun w =>
    match c w with
    | (Returned a, w') => k a w'
    | (Panicked msg, w') => (Panicked msg, w')
    end.

Definition panic {A} (msg : string) : M A := fun w => (Panicked msg, w).

Definition emit (ev : Event) : M unit :=
  fun w => (Returned tt,
            {| World_ticks := World_ticks w;
               World_trace := (World_trace w ++ [ev])%list |}).

(** [defer f; body]: [f] runs when [body] is left, by return or by panic. *)
Definition defer {A} (f : M unit) (body : M A) : M A :=
  fun w =>
    match body w with
    | (r, w') => match f w' with (_, w'') => (r, w'') end
    end.

Notation "'let*' x ':=' c 'in' k" := (bind c (fun x => k))
  (at level 10, x name, c at level 100, k at level 200, only parsing).

Section Effects.
Context (E : Env).

Definition time_Now : M time_Time :=
  fun w =>
    let t := Env_clock E (World_ticks w) in
    (Returned t,
     {| World_ticks := S (World_ticks w);
        World_trace := (World_trace w ++ [EvNow t])%list |}).

Definition Client_Do (c : http_Client) (req : http_Request)
  : M (http_Response + error) :=
  let* _ := emit (EvDo c req) in ret (Env_Do E c req).

(** [io.Copy(io.Discard, body)]: the number of bytes and the error. *)
Definition io_Copy_Discard (b : http_Body) : M (Z * option error) :=
  let* _ := emit (EvCopy b) in
  ret (Z.of_nat (String.length (Body_data b)), Body_err b).

Definition Body_Close (b : http_Body) : M unit := emit (EvClose b).

Definition x509_SystemCertPool : M (x509_CertPool + error) :=
  let* _ := emit EvSystemCertPool in ret (Env_SystemCertPool E).

Definition Certificate_Verify (c : x509_Certificate)
    (opts : x509_VerifyOptions) : M (option error) :=
  let* _ := emit (EvVerify c opts) in ret (Env_Verify E c opts).
End Effects.

(** The assignments to the fields of a [CertInfo] and of a [CheckResult]. *)
Definition CertInfo_invalid (ci : CertInfo) (msg : string) : CertInfo :=
  {| CertInfo_Subject := CertInfo_Subject ci;
     CertInfo_Issuer := CertInfo_Issuer ci;
     CertInfo_ValidFrom := CertInfo_ValidFrom ci;
     CertInfo_ValidTo := CertInfo_ValidTo ci;
     CertInfo_DNSNames := CertInfo_DNSNames ci;
     CertInfo_IsValid := false;
     CertInfo_ErrorMsg := msg |}.

Definition VerifyOptions_add_intermediate (opts : x509_VerifyOptions)
    (c : x509_Certificate) : x509_VerifyOptions :=
  {| VerifyOptions_DNSName := VerifyOptions_DNSName opts;
     VerifyOptions_Roots := VerifyOptions_Roots opts;
     VerifyOptions_Intermediates :=
       CertPool_AddCert (VerifyOptions_Intermediates opts) c |}.

Section Executor.
Context `{GoLib} (E : Env).

(** certInfo extracts certificate details and verifies the validity
    (line 173).  The argument and the result are pointers. *)
Definition certInfo (tlsState : option tls_ConnectionState) (host : string)
  : M (option CertInfo) :=
  match tlsState with
  | None => panic "invalid memory address or nil pointer dereference"
  | Some tlsState =>
    match ConnectionState_PeerCertificates tlsState !! 0%nat with
    | None => panic "index out of range [0] with length 0"
    | Some cert =>
      let certInfo :=
        {| CertInfo_Subject := Name_String (Certificate_Subject cert);
           CertInfo_Issuer := Name_String (Certificate_Issuer cert);
           CertInfo_ValidFrom := Certificate_NotBefore cert;
           CertInfo_ValidTo := Certificate_NotAfter cert;
           CertInfo_DNSNames := Certificate_DNSNames cert;
           CertInfo_IsValid := true;
           CertInfo_ErrorMsg := "" |} in
      let* now := time_Now E in
      if Time_Before now (Certificate_NotBefore cert) then
        ret (Some (CertInfo_invalid certInfo
               ("certificate not yet valid: "
                  +:+ Time_String (Certificate_NotBefore cert))))
      else if Time_After now (Certificate_NotAfter cert) then
        ret (Some (CertInfo_invalid certInfo
               ("certificate has expired: "
                  +:+ Time_String (Certificate_NotAfter cert))))
      else
        let* r := x509_SystemCertPool E in
        match r with
        | inr err =>
            ret (Some (CertInfo_invalid certInfo
                   ("error loading system root certificates: "
                      +:+ error_Error err)))
        | inl roots =>
            let opts :=
              {| VerifyOptions_DNSName := host;
                 VerifyOptions_Roots := roots;
                 VerifyOptions_Intermediates := x509_NewCertPool |} in
            let opts :=
              fold_left VerifyOptions_add_intermediate
                (drop 1 (ConnectionState_PeerCertificates tlsState)) opts in
            let* v := Certificate_Verify E cert opts in
            match v with
            | Some err =>
                ret (Some (CertInfo_invalid certInfo
                       ("hostname verification failed: "
                          +:+ error_Error err)))
            | None => ret (Some certInfo)
            end
        end
    end
  end.

(** The three cache-busting headers of lines 142-144. *)
Definition set_nocache_headers (h : http_Header) : http_Header :=
  Header_Set
    (Header_Set
       (Header_Set h "Cache-Control" "no-cache, no-store, must-revalidate")
       "Pragma" "no-cache")
    "Expires" "0".

(** Check executes an HTTP request to the configured URL and returns the
    result (line 133).  The Go function returns a pointer to a CheckResult
    and an error. *)
Definition Monitor_Check (m : Monitor) (ctx : Context)
  : M (option CheckResult * option error) :=
  let url := Config_URL (Monitor_config m) in
  match http_NewRequestWithContext ctx
          (Config_Method (Monitor_config m)) url with
  | inr err =>
      ret (None,
           Some (fmt_Errorf_w
                   ("failed to create request for "
                      +:+ strconv_Quote url +:+ ": ") err))
  | inl req =>
      let req :=
        Request_set_Header req (set_nocache_headers (Request_Header req)) in
      let* stamp := time_Now E in
      let req :=
        Request_set_URL req
          (URL_set_RawQuery (Request_URL req)
             ("nocache=" +:+ pretty (Time_UnixNano stamp))) in
      let* start := time_Now E in
      let* r := Client_Do E (Monitor_client m) req in
      let* end_ := time_Now E in
      match r with
      | inr err =>
          ret (None,
               Some (fmt_Errorf_w
                       ("failed to send request for "
                          +:+ strconv_Quote url +:+ ": ") err))
      | inl resp =>
          defer (Body_Close (Response_Body resp))
            (let* copied := io_Copy_Discard (Response_Body resp) in
             match snd copied with
             | Some err =>
                 ret (None,
                      Some (fmt_Errorf_w
                              ("failed to read response body for "
                                 +:+ strconv_Quote url +:+ ": ") err))
             | None =>
                 let* ci := match Response_TLS resp with
                       | Some tlsState =>
                           if decide (0 < length
                                (ConnectionState_PeerCertificates tlsState))%nat
                           then certInfo (Response_TLS resp)
                                  (URL_Hostname
                                     (Request_URL (Response_Request resp)))
                           else ret None
                       | None => ret None
                       end in
                 ret (Some {| CheckResult_URL := url;
                              CheckResult_StatusCode :=
                                Response_StatusCode resp;
                              CheckResult_Start := start;
                              CheckResult_End := end_;
                              CheckResult_CertInfo := ci |},
                      None)
             end)
      end
  end.
End Executor.

(** ** A reference instance of the library

    An executable instance of [GoLib] for the concrete examples.  It follows
    the algorithms of net/url ([Parse], [String], [Hostname]) and net/http
    ([NewRequestWithContext]) on the URLs written with letters, digits and
    the bytes [- . _ ~ / : ? # = &], with at most one [#]: on these no
    component needs percent-encoding, and a [time.Time] is printed in UTC.
    Any other input is answered with an error that names the limit. *)

Module Ref.

Definition dquote : string := String (ascii_of_nat 34) EmptyString.

(** [strings.Cut(s, c)] for a one-byte separator. *)
Fixpoint Cut (c : ascii) (s : string) : string * string * bool :=
  match s with
  | EmptyString => (EmptyString, EmptyString, false)
  | String a rest =>
      if Ascii.eqb a c then (EmptyString, rest, true)
      else match Cut c rest with
           | (before, after, found) => (String a before, after, found)
           end
  end.

Definition Contains (c : ascii) (s : string) : bool := mem_ascii c s.

Definition Count (c : ascii) (s : string) : nat :=
  length (filter (fun a => Ascii.eqb a c = true) (list_ascii_of_string s)).

Definition HasPrefix (s p : string) : bool := String.prefix p s.

Definition HasSuffix (s p : string) : bool :=
  String.prefix (String.rev p) (String.rev s).

Definition ToLower (s : string) : string :=
  string_of_list_ascii (map to_lower (list_ascii_of_string s)).

(** The part of [s] from its last [c] on ([s[LastIndex(s, c):]]), and the
    part before it; [None] when [c] does not occur. *)
Definition cut_last (c : ascii) (s : string) : option (string * string) :=
  match Cut c (String.rev s) with
  | (rafter, rbefore, true) =>
      Some (String.rev rbefore, String c (String.rev rafter))
  | _ => None
  end.

Definition in_alphabet (c : ascii) : bool :=
  is_upper c || is_lower c || is_digit c || mem_ascii c "-._~/:?#=&".

Definition supported (s : string) : bool :=
  forallb in_alphabet (list_ascii_of_string s) && (Count "#" s <=? 1)%nat.

Definition Quote (s : string) : string := dquote +:+ s +:+ dquote.

(** [getScheme]: the scheme and the rest, or an error. *)
Fixpoint getScheme_go (seen : string) (s rawURL : string)
  : (string * string) + error :=
  match s with
  | EmptyString => inl (EmptyString, rawURL)
  | String c rest =>
      if is_lower c || is_upper c then
        getScheme_go (seen +:+ String c EmptyString) rest rawURL
      else if is_digit c || mem_ascii c "+-." then
        if decide (seen = EmptyString) then inl (EmptyString, rawURL)
        else getScheme_go (seen +:+ String c EmptyString) rest rawURL
      else if Ascii.eqb c ":" then
        if decide (seen = EmptyString)
        then inr (errors_New "missing protocol scheme")
        else inl (seen, rest)
      else inl (EmptyString, rawURL)
  end.

Definition getScheme (rawURL : string) : (string * string) + error :=
  getScheme_go EmptyString rawURL rawURL.

Definition validOptionalPort (port : string) : bool :=
  match port with
  | EmptyString => true
  | String c digits =>
      Ascii.eqb c ":" && forallb is_digit (list_ascii_of_string digits)
  end.

Definition parseHost (host : string) : string + error :=
  match cut_last ":" host with
  | Some (_, colonPort) =>
      if validOptionalPort colonPort then inl host
      else inr (errors_New ("invalid port " +:+ Quote colonPort
                              +:+ " after host"))
  | None => inl host
  end.

Definition empty_URL : url_URL :=
  {| URL_Scheme := ""; URL_Opaque := ""; URL_User := None; URL_Host := "";
     URL_Path := ""; URL_RawPath := ""; URL_OmitHost := false;
     URL_ForceQuery := false; URL_RawQuery := ""; URL_Fragment := "";
     URL_RawFragment := "" |}.

(** [parse(rawURL, viaRequest = false)]. *)
Definition parse (rawURL : string) : url_URL + error :=
  match getScheme rawURL with
  | inr err => inr err
  | inl (scheme, rest) =>
    let scheme := ToLower scheme in
    let '(rest, force, query) :=
      if HasSuffix rest "?" && (Count "?" rest =? 1)%nat
      then (fst (fst (Cut "?" rest)), true, "")
      else (fst (fst (Cut "?" rest)), false, snd (fst (Cut "?" rest))) in
    if negb (HasPrefix rest "/") && negb (String.eqb scheme "") then
      inl {| URL_Scheme := scheme; URL_Opaque := rest; URL_User := None;
             URL_Host := ""; URL_Path := ""; URL_RawPath := "";
             URL_OmitHost := false; URL_ForceQuery := force;
             URL_RawQuery := query; URL_Fragment := "";
             URL_RawFragment := "" |}
    else if negb (HasPrefix rest "/")
            && Contains ":" (fst (fst (Cut "/" rest))) then
      inr (errors_New "first path segment in URL cannot contain colon")
    else if (negb (String.eqb scheme "") || negb (HasPrefix rest "///"))
            && HasPrefix rest "//" then
      let after := substring 2 (String.length rest - 2) rest in
      let '(authority, tail, found) := Cut "/" after in
      let path := if found then String "/" tail else "" in
      match parseHost authority with
      | inr err => inr err
      | inl host =>
          inl {| URL_Scheme := scheme; URL_Opaque := ""; URL_User := None;
                 URL_Host := host; URL_Path := path; URL_RawPath := "";
                 URL_OmitHost := false; URL_ForceQuery := force;
                 URL_RawQuery := query; URL_Fragment := "";
                 URL_RawFragment := "" |}
      end
    else
      inl {| URL_Scheme := scheme; URL_Opaque := ""; URL_User := None;
             URL_Host := ""; URL_Path := rest; URL_RawPath := "";
             URL_OmitHost :=
               negb (String.eqb scheme "") && HasPrefix rest "/";
             URL_ForceQuery := force;
             URL_RawQuery := query; URL_Fragment := "";
             URL_RawFragment := "" |}
  end.

Definition URL_set_Fragment (u : url_URL) (frag : string) : url_URL :=
  {| URL_Scheme := URL_Scheme u; URL_Opaque := URL_Opaque u;
     URL_User := URL_User u; URL_Host := URL_Host u;
     URL_Path := URL_Path u; URL_RawPath := URL_RawPath u;
     URL_OmitHost := URL_OmitHost u; URL_ForceQuery := URL_ForceQuery u;
     URL_RawQuery := URL_RawQuery u;
     URL_Fragment := frag; URL_RawFragment := "" |}.

(** [url.Parse]. *)
Definition Parse (rawURL : string) : url_URL + error :=
  if negb (supported rawURL) then
    inr (errors_New ("parse " +:+ Quote rawURL
                       +:+ ": outside the alphabet of the reference model"))
  else
    let '(u, frag, _) := Cut "#" rawURL in
    match parse u with
    | inr err =>
        inr (wrapError ("parse " +:+ Quote u +:+ ": " +:+ error_Error err)
               err)
    | inl url =>
        if String.eqb frag "" then inl url
        else inl (URL_set_Fragment url frag)
    end.

(** [u.String()]. *)
Definition URL_String (u : url_URL) : string :=
  let scheme :=
    if String.eqb (URL_Scheme u) "" then "" else URL_Scheme u +:+ ":" in
  let body :=
    if negb (String.eqb (URL_Opaque u) "") then scheme +:+ URL_Opaque u
    else
      let authority :=
        if negb (String.eqb (URL_Scheme u) "")
           || negb (String.eqb (URL_Host u) "")
        then
          if URL_OmitHost u && String.eqb (URL_Host u) "" then ""
          else
            (if negb (String.eqb (URL_Host u) "")
                || negb (String.eqb (URL_Path u) "")
             then "//" else "") +:+ URL_Host u
        else "" in
      let path := URL_Path u in
      let slash :=
        if negb (String.eqb path "") && negb (HasPrefix path "/")
           && negb (String.eqb (URL_Host u) "")
        then "/" else "" in
      let dot :=
        if String.eqb (scheme +:+ authority +:+ slash) ""
           && Contains ":" (fst (fst (Cut "/" path)))
        then "./" else "" in
      scheme +:+ authority +:+ slash +:+ dot +:+ path in
  body
    +:+ (if URL_ForceQuery u || negb (String.eqb (URL_RawQuery u) "")
         then "?" +:+ URL_RawQuery u else "")
    +:+ (if String.eqb (URL_Fragment u) "" then ""
         else "#" +:+ URL_Fragment u).

(** [u.Hostname()]: the host without a valid port. *)
Definition URL_Hostname (u : url_URL) : string :=
  match cut_last ":" (URL_Host u) with
  | Some (host, colonPort) =>
      if validOptionalPort colonPort then host else URL_Host u
  | None => URL_Host u
  end.

(** [removeEmptyPort]: a host that ends in a colon loses it. *)
Definition removeEmptyPort (host : string) : string :=
  if HasSuffix host ":"
  then substring 0 (String.length host - 1) host else host.

(** [http.NewRequestWithContext(ctx, method, url, nil)]. *)
Definition NewRequestWithContext (ctx : Context) (method url : string)
  : http_Request + error :=
  let method := if String.eqb method "" then "GET" else method in
  if negb (forallb validHeaderFieldByte (list_ascii_of_string method)) then
    inr (errors_New ("net/http: invalid method " +:+ Quote method))
  else
    match ctx with
    | context_nil => inr (errors_New "net/http: nil Context")
    | _ =>
        match Parse url with
        | inr err => inr err
        | inl u =>
            inl {| Request_ctx := ctx; Request_Method := method;
                   Request_URL := u; Request_Header := ∅;
                   Request_Host := removeEmptyPort (URL_Host u) |}
        end
    end.

(** Decimal digits of [n], padded with zeros on the left to [width]. *)
Fixpoint zeros (n : nat) : string :=
  match n with
  | O => ""
  | S n => "0" +:+ zeros n
  end.
Definition pad (width : nat) (n : Z) : string :=
  zeros (width - String.length (pretty n)) +:+ pretty n.

Fixpoint trim_zeros_rev (s : list ascii) : list ascii :=
  match s with
  | c :: rest => if Ascii.eqb c "0" then trim_zeros_rev rest else s
  | [] => []
  end.
Definition trim_zeros (s : string) : string :=
  string_of_list_ascii
    (rev (trim_zeros_rev (rev (list_ascii_of_string s)))).

(** Year, month and day of a day number counted from 1970-01-01. *)
Definition civil (days : Z) : Z * Z * Z :=
  let z := days + 719468 in
  let era := z / 146097 in
  let doe := z - era * 146097 in
  let yoe := (doe - doe / 1460 + doe / 36524 - doe / 146096) / 365 in
  let doy := doe - (365 * yoe + yoe / 4 - yoe / 100) in
  let mp := (5 * doy + 2) / 153 in
  let d := doy - (153 * mp + 2) / 5 + 1 in
  let m := if mp <? 10 then mp + 3 else mp - 9 in
  let y := yoe + era * 400 + (if m <=? 2 then 1 else 0) in
  (y, m, d).

(** [t.String()] for a time in UTC. *)
Definition Time_String (t : time_Time) : string :=
  let sec := Time_wall t / 1000000000 in
  let nsec := Time_wall t mod 1000000000 in
  let '(y, m, d) := civil (sec / 86400) in
  let tod := sec mod 86400 in
  pad 4 y +:+ "-" +:+ pad 2 m +:+ "-" +:+ pad 2 d +:+ " "
    +:+ pad 2 (tod / 3600) +:+ ":" +:+ pad 2 (tod mod 3600 / 60)
    +:+ ":" +:+ pad 2 (tod mod 60)
    +:+ (if nsec =? 0 then "" else "." +:+ trim_zeros (pad 9 nsec))
    +:+ " +0000 UTC"
    +:+ match Time_mono t with
        | None => ""
        | Some mono =>
            " m=" +:+ (if mono <? 0 then "-" else "+")
              +:+ pretty (Z.abs mono / 1000000000) +:+ "."
              +:+ pad 9 (Z.abs mono mod 1000000000)
        end.

(** [name.String()]: the attributes, last one first, without escapes. *)
Definition Name_String (n : pkix_Name) : string :=
  String.concat ","
    (map (fun kv => fst kv +:+ "=" +:+ snd kv) (rev n)).

Definition lib : GoLib :=
  Build_GoLib Parse URL_String URL_Hostname Quote Time_String Name_String
    NewRequestWithContext.
End Ref.

(** ** Words of the specification, as predicates *)

Section SpecWords.
Context `{GoLib}.

(** The URL fails to parse, lacks a scheme, or lacks a host. *)
Definition url_rejected (rawURL : string) : Prop :=
  match url_Parse rawURL with
  | inr _ => True
  | inl u => URL_Scheme u = "" \/ URL_Host u = ""
  end.

(** The method is empty, or the timeout is negative, or the URL is
    rejected. *)
Definition config_rejected (config : Config) : Prop :=
  Config_Method config = ""
  \/ Config_RequestTimeout config < 0
  \/ url_rejected (Config_URL config).

(** The timeout and the accepted status codes after defaulting (lines
    61-67). *)
Definition effective_timeout (config : Config) : Duration :=
  if decide (Config_RequestTimeout config = 0)
  then 10 * time_Second else Config_RequestTimeout config.

Definition effective_codes (config : Config) : list Z :=
  if decide (length (Config_UpStatusCodes config) = 0%nat)
  then [200; 201] else Config_UpStatusCodes config.

(** The request as Check sends it (lines 142-145): the request that
    [http.NewRequestWithContext] built, with the cache-busting headers and
    with the query string assigned from the clock reading [stamp]. *)
Definition sent_request (req : http_Request) (stamp : time_Time)
  : http_Request :=
  Request_set_URL
    (Request_set_Header req (set_nocache_headers (Request_Header req)))
    (URL_set_RawQuery (Request_URL req)
       ("nocache=" +:+ pretty (Time_UnixNano stamp))).

(** The options certInfo passes to the chain verification (lines
    205-212): the host as the expected name, the roots of the trust store,
    and the certificates after the leaf as intermediates. *)
Definition certInfo_opts (host : string) (roots : x509_CertPool)
    (rest : list x509_Certificate) : x509_VerifyOptions :=
  {| VerifyOptions_DNSName := host;
     VerifyOptions_Roots := roots;
     VerifyOptions_Intermediates := rest |}.

(** The structure certInfo fills in before any check (lines 175-182). *)
Definition leaf_info (cert : x509_Certificate) : CertInfo :=
  {| CertInfo_Subject := Name_String (Certificate_Subject cert);
     CertInfo_Issuer := Name_String (Certificate_Issuer cert);
     CertInfo_ValidFrom := Certificate_NotBefore cert;
     CertInfo_ValidTo := Certificate_NotAfter cert;
     CertInfo_DNSNames := Certificate_DNSNames cert;
     CertInfo_IsValid := true;
     CertInfo_ErrorMsg := "" |}.

(** The text [s] contains the text [sub]. *)
Definition str_contains (s sub : string) : Prop :=
  exists pre post, s = pre +:+ sub +:+ post.

(** The error [err] reports the failure [cause] of a step of a check of
    [url]: it wraps the cause, its text is the phrase for the step, the URL
    as the verb [%q] prints it, a colon and the text of the cause; so the
    text contains the quoted URL, and the URL itself wherever quoting leaves
    it as it is. *)
Definition reports_failure (err : error) (phrase url : string)
    (cause : error) : Prop :=
  error_Unwrap err = Some cause
  /\ error_Error err
     = phrase +:+ strconv_Quote url +:+ ": " +:+ error_Error cause
  /\ str_contains (error_Error err) (strconv_Quote url)
  /\ (str_contains (strconv_Quote url) url ->
      str_contains (error_Error err) url).

(** The pair a Go function returns is all-or-nothing: a value and no
    error, or no value and an error. *)
Definition all_or_nothing {A} (r : option A * option error) : Prop :=
  (exists a, r = (Some a, None)) \/ (exists err, r = (None, Some err)).
End SpecWords.

(** The world after [n] more clock readings and the events [evs]. *)
Definition advance (w : World) (n : nat) (evs : list Event) : World :=
  {| World_ticks := (n + World_ticks w)%nat;
     World_trace := (World_trace w ++ evs)%list |}.

(** The clock of an environment is monotonic: every reading carries a
    monotonic reading, and a later reading is not smaller. *)
Definition clock_monotonic (E : Env) : Prop :=
  forall i j : nat, (i <= j)%nat ->
    exists a b, Time_mono (Env_clock E i) = Some a
      /\ Time_mono (Env_clock E j) = Some b /\ a <= b.

(** ** Example inputs *)

Module Examples.

Definition config_of (url : string) (timeout : Duration) (codes : list Z)
  : Config :=
  {| Config_URL := url; Config_Method := "GET";
     Config_RequestTimeout := timeout; Config_IgnoreCert := false;
     Config_DontFollowRedirect := false; Config_UpStatusCodes := codes;
     Config_Headers := ∅ |}.

(** The valid configuration of the package's own test, without accepted
    status codes and without a timeout. *)
Definition config_defaults : Config :=
  config_of "https://example.com" 0 [].

(** A monitored URL with a query string of its own. *)
Definition config_query : Config :=
  config_of "https://example.com/health?token=abc" (5 * time_Second) [200].

(** The monitor NewMonitor builds from [config_defaults]. *)
Definition monitor_defaults : Monitor :=
  {| Monitor_client :=
       {| Client_Timeout := 10 * time_Second;
          Client_Transport :=
            {| Transport_TLSClientConfig :=
                 {| TLSConfig_InsecureSkipVerify := false |} |};
          Client_CheckRedirect := None |};
     Monitor_config := config_of "https://example.com" (10 * time_Second)
                         [200; 201] |}.


(** The monitor NewMonitor builds from [config_query]. *)
Definition monitor_query : Monitor :=
  {| Monitor_client :=
       {| Client_Timeout := 5 * time_Second;
          Client_Transport :=
            {| Transport_TLSClientConfig :=
                 {| TLSConfig_InsecureSkipVerify := false |} |};
          Client_CheckRedirect := None |};
     Monitor_config := config_query |}.

(** A clock that starts on 2023-11-14 22:13:20 UTC and advances by one
    millisecond per reading. *)
Definition clock (n : nat) : time_Time :=
  {| Time_wall := 1700000000 * 1000000000 + Z.of_nat n * 1000000;
     Time_mono := Some (Z.of_nat n * 1000000) |}.

Definition at_second (s : Z) : time_Time :=
  {| Time_wall := s * 1000000000; Time_mono := None |}.

(** A leaf certificate for example.com, valid from 2023-07-22 to
    2024-07-03, one that expired on 2015-04-12, and one that is valid only
    from 2030-01-01; an intermediate and a root. *)
Definition ca_name : pkix_Name := [("C", "US"); ("O", "Example CA")].

Definition leaf : x509_Certificate :=
  {| Certificate_Subject := [("CN", "example.com")];
     Certificate_Issuer := ca_name;
     Certificate_NotBefore := at_second 1690000000;
     Certificate_NotAfter := at_second 1720000000;
     Certificate_DNSNames := ["example.com"; "www.example.com"] |}.

Definition leaf_expired : x509_Certificate :=
  {| Certificate_Subject := [("CN", "example.com")];
     Certificate_Issuer := ca_name;
     Certificate_NotBefore := at_second 1400000000;
     Certificate_NotAfter := at_second 1428883199;
     Certificate_DNSNames := ["example.com"] |}.

Definition leaf_future : x509_Certificate :=
  {| Certificate_Subject := [("CN", "example.com")];
     Certificate_Issuer := ca_name;
     Certificate_NotBefore := at_second 1893456000;
     Certificate_NotAfter := at_second 1924992000;
     Certificate_DNSNames := ["example.com"] |}.

Definition intermediate : x509_Certificate :=
  {| Certificate_Subject := ca_name;
     Certificate_Issuer := [("C", "US"); ("O", "Example Root")];
     Certificate_NotBefore := at_second 1600000000;
     Certificate_NotAfter := at_second 1900000000;
     Certificate_DNSNames := [] |}.

Definition root : x509_Certificate :=
  {| Certificate_Subject := [("C", "US"); ("O", "Example Root")];
     Certificate_Issuer := [("C", "US"); ("O", "Example Root")];
     Certificate_NotBefore := at_second 1500000000;
     Certificate_NotAfter := at_second 2000000000;
     Certificate_DNSNames := [] |}.

(** A verifier that accepts a leaf when the expected name is one of its
    DNS names. *)
Definition verify (c : x509_Certificate) (opts : x509_VerifyOptions)
  : option error :=
  if existsb (String.eqb (VerifyOptions_DNSName opts))
       (Certificate_DNSNames c)
  then None
  else Some (errors_New
               ("x509: certificate is not valid for "
                  +:+ VerifyOptions_DNSName opts)).

Definition respond (tls : option tls_ConnectionState) (body : http_Body)
    (c : http_Client) (req : http_Request) : http_Response + error :=
  inl {| Response_StatusCode := 200; Response_Body := body;
         Response_TLS := tls; Response_Request := req |}.

Definition body_ok : http_Body :=
  {| Body_data := "ok"; Body_err := None |}.

Definition body_broken : http_Body :=
  {| Body_data := "o"; Body_err := Some (errors_New "unexpected EOF") |}.

Definition env_with (do : http_Client -> http_Request ->
                          http_Response + error) : Env :=
  {| Env_clock := clock; Env_Do := do;
     Env_SystemCertPool := inl [root]; Env_Verify := verify |}.

(** A server that answers over TLS with the chain [chain]. *)
Definition env_tls (chain : list x509_Certificate) : Env :=
  env_with
    (respond (Some {| ConnectionState_PeerCertificates := chain |}) body_ok).

(** A server that answers without TLS. *)
Definition env_plain : Env := env_with (respond None body_ok).

(** A server whose body breaks off. *)
Definition env_broken_body : Env := env_with (respond None body_broken).

(** A host that refuses the connection. *)
Definition env_refused : Env :=
  env_with (fun c req => inr (errors_New "dial tcp: connection refused")).

End Examples.

(** ** Result rendering (gomon.go, lines 222-270)

    [String] writes the report of a result into a [strings.Builder].  The
    formatting functions of the standard library it calls are collected in
    the class [FmtLib]; [strconv.Itoa] is the decimal printer [pretty] and
    [strconv.FormatBool] is written out. *)

Class FmtLib : Type := {
  (** [http.StatusText]: the phrase of a status code, empty when unknown *)
  http_StatusText : Z -> string;
  (** [t.Format(layout)] *)
  Time_Format : time_Time -> string -> string;
  (** [d.String()] *)
  Duration_String : Duration -> string
}.

(** [time.DateTime]. *)
Definition time_DateTime : string := "2006-01-02 15:04:05".

(** The line feed. *)
Definition nl : string := String (ascii_of_nat 10) EmptyString.

Definition strconv_Itoa (i : Z) : string := pretty i.

Definition strconv_FormatBool (b : bool) : string :=
  if b then "true" else "false".

(** A [strings.Builder] is the text written so far. *)
Definition strings_Builder : Type := string.

Definition Builder_WriteString (b : strings_Builder) (s : string)
  : strings_Builder := b +:+ s.

(** The writes of a list of strings, first to last. *)
Definition Builder_WriteStrings (b : strings_Builder) (l : list string)
  : strings_Builder := fold_left Builder_WriteString l b.

Section Rendering.
Context `{FmtLib}.

(** The writes of lines 251-266, for a result with certificate details. *)
Definition CertInfo_writes (ci : CertInfo) : list string :=
  ["Certificate Info:"; nl;
   "  Valid: "; strconv_FormatBool (CertInfo_IsValid ci); nl]
  ++ (if decide (CertInfo_ErrorMsg ci <> "")
      then ["  Error: "; CertInfo_ErrorMsg ci; nl] else [])
  ++ ["  From "; Time_Format (CertInfo_ValidFrom ci) time_DateTime;
      " to "; Time_Format (CertInfo_ValidTo ci) time_DateTime; nl].

(** The writes of lines 228-248. *)
Definition CheckResult_writes (result : CheckResult) : list string :=
  ["Website: "; CheckResult_URL result; nl;
   "Status: "; strconv_Itoa (CheckResult_StatusCode result);
   " ("; http_StatusText (CheckResult_StatusCode result); ")"; nl;
   "Start: "; Time_Format (CheckResult_Start result) time_DateTime; nl;
   "  End: "; Time_Format (CheckResult_End result) time_DateTime; nl;
   "Duration: ";
   Duration_String
     (Time_Sub (CheckResult_End result) (CheckResult_Start result));
   nl].

(** String implements the Stringer interface for a result (line 223).  The
    receiver is a pointer; a nil receiver cannot be read. *)
Definition CheckResult_String (result : option CheckResult)
  : Outcome string :=
  match result with
  | None => Panicked "invalid memory address or nil pointer dereference"
  | Some result =>
      let builder : strings_Builder := "" in
      let builder := Builder_WriteStrings builder (CheckResult_writes result) in
      let builder :=
        match CheckResult_CertInfo result with
        | Some ci => Builder_WriteStrings builder (CertInfo_writes ci)
        | None => builder
        end in
      Returned builder
  end.

(** The number of line feeds in a text. *)
Definition count_lines (s : string) : nat :=
  length (filter (fun c => c = ascii_of_nat 10) (list_ascii_of_string s)).

(** A text without a line feed. *)
Definition single_line (s : string) : Prop := count_lines s = 0%nat.
End Rendering.

(** ** The command (the program that uses the package)

    [main] builds one monitor per URL, prints the construction errors, and
    starts one check per monitor that was built; each check calls
    [fmt.Println] once, on its error or on its result.  The order in which
    the checks run is not modelled: [main_build] is the first loop and
    [main_task] the body of a goroutine of the second loop, without its
    [wg.Done]. *)

Section Command.
Context `{GoLib}.

(** The configuration [main] builds for a URL (lines 27-33 of the
    command). *)
Definition main_config (url : string) : Config :=
  {| Config_URL := url;
     Config_Method := "GET";
     Config_RequestTimeout := 10 * time_Second;
     Config_IgnoreCert := true;
     Config_DontFollowRedirect := false;
     Config_UpStatusCodes := [];
     Config_Headers := ∅ |}.

(** The first loop: the slice of monitors, a nil entry where the
    construction failed, and the lines printed. *)
Fixpoint main_build (urls : list string)
  : list (option Monitor) * list string :=
  match urls with
  | [] => ([], [])
  | url :: urls =>
      let '(m, err) := NewMonitor (main_config url) in
      let printed :=
        match err with
        | Some err => [error_Error err]
        | None => []
        end in
      let '(monitors, lines) := main_build urls in
      (m :: monitors, printed ++ lines)
  end.

(** The monitors for which the second loop starts a goroutine. *)
Definition main_started (monitors : list (option Monitor)) : list Monitor :=
  omap id monitors.
End Command.

(** Standard output: the texts written to it, first to last. *)
Definition Stdout : Type := list string.

(** [fmt.Println(v)] writes the text of its operand and a line feed. *)
Definition fmt_Println (text : string) (out : Stdout) : Stdout :=
  out ++ [text +:+ nl].

Section CommandTask.
Context `{GoLib} `{FmtLib} (E : Env).

(** The text [fmt] prints for a pointer to a CheckResult: what its String
    method returns; for a nil pointer, whose String method panics, [fmt]
    recovers and prints [<nil>]. *)
Definition fmt_text_of_result (result : option CheckResult) : string :=
  match CheckResult_String result with
  | Returned text => text
  | Panicked _ => "<nil>"
  end.

(** The body of a goroutine (lines 45-50 of the command): one check, then
    [fmt.Println] of the error, or else of the result. *)
Definition main_task (m : Monitor) (w : World) (out : Stdout)
  : Outcome unit * World * Stdout :=
  match Monitor_Check E m context_Background w with
  | (Returned (result, Some err), w') =>
      (Returned tt, w', fmt_Println (error_Error err) out)
  | (Returned (result, None), w') =>
      (Returned tt, w', fmt_Println (fmt_text_of_result result) out)
  | (Panicked msg, w') => (Panicked msg, w', out)
  end.
End CommandTask.

(** ** A reference instance of the formatting functions

    Executable formatting functions for the concrete examples: the table of
    [http.StatusText], [Duration.String], and [Time.Format] for the layout
    [time.DateTime] of a time in UTC. *)

Module RefFmt.

Definition StatusText (code : Z) : string :=
  match code with
  | 100 => "Continue" | 101 => "Switching Protocols" | 102 => "Processing"
  | 103 => "Early Hints"
  | 200 => "OK" | 201 => "Created" | 202 => "Accepted"
  | 203 => "Non-Authoritative Information" | 204 => "No Content"
  | 205 => "Reset Content" | 206 => "Partial Content"
  | 207 => "Multi-Status" | 208 => "Already Reported" | 226 => "IM Used"
  | 300 => "Multiple Choices" | 301 => "Moved Permanently" | 302 => "Found"
  | 303 => "See Other" | 304 => "Not Modified" | 305 => "Use Proxy"
  | 307 => "Temporary Redirect" | 308 => "Permanent Redirect"
  | 400 => "Bad Request" | 401 => "Unauthorized"
  | 402 => "Payment Required" | 403 => "Forbidden" | 404 => "Not Found"
  | 405 => "Method Not Allowed" | 406 => "Not Acceptable"
  | 407 => "Proxy Authentication Required" | 408 => "Request Timeout"
  | 409 => "Conflict" | 410 => "Gone" | 411 => "Length Required"
  | 412 => "Precondition Failed" | 413 => "Request Entity Too Large"
  | 414 => "Request URI Too Long" | 415 => "Unsupported Media Type"
  | 416 => "Requested Range Not Satisfiable" | 417 => "Expectation Failed"
  | 418 => "I'm a teapot" | 421 => "Misdirected Request"
  | 422 => "Unprocessable Entity" | 423 => "Locked"
  | 424 => "Failed Dependency" | 425 => "Too Early"
  | 426 => "Upgrade Required" | 428 => "Precondition Required"
  | 429 => "Too Many Requests" | 431 => "Request Header Fields Too Large"
  | 451 => "Unavailable For Legal Reasons"
  | 500 => "Internal Server Error" | 501 => "Not Implemented"
  | 502 => "Bad Gateway" | 503 => "Service Unavailable"
  | 504 => "Gateway Timeout" | 505 => "HTTP Version Not Supported"
  | 506 => "Variant Also Negotiates" | 507 => "Insufficient Storage"
  | 508 => "Loop Detected" | 510 => "Not Extended"
  | 511 => "Network Authentication Required"
  | _ => ""
  end.

(** [fmtFrac]: the fraction of [v / 10^prec] without trailing zeros, and
    without the point when it is zero. *)
Definition fmtFrac (v : Z) (prec : nat) : string :=
  let f := v mod 10 ^ Z.of_nat prec in
  if f =? 0 then "" else "." +:+ Ref.trim_zeros (Ref.pad prec f).

(** The micro sign, two bytes in UTF-8. *)
Definition micro : string :=
  String (ascii_of_nat 194) (String (ascii_of_nat 181) EmptyString).

(** [d.String()]. *)
Definition Duration_String (d : Duration) : string :=
  let u := Z.abs d in
  let body :=
    if u <? 1000000000 then
      if u =? 0 then "0s"
      else if u <? 1000 then pretty u +:+ "ns"
      else if u <? 1000000 then
        pretty (u / 1000) +:+ fmtFrac u 3 +:+ micro +:+ "s"
      else pretty (u / 1000000) +:+ fmtFrac u 6 +:+ "ms"
    else
      let secs := u / 1000000000 in
      let mins := secs / 60 in
      let hours := mins / 60 in
      (if 0 <? hours then pretty hours +:+ "h" else "")
        +:+ (if 0 <? mins then pretty (mins mod 60) +:+ "m" else "")
        +:+ pretty (secs mod 60) +:+ fmtFrac u 9 +:+ "s" in
  if d <? 0 then "-" +:+ body else body.

(** [t.Format(layout)] for the layout [time.DateTime], in UTC. *)
Definition Time_Format (t : time_Time) (layout : string) : string :=
  if String.eqb layout time_DateTime then
    let sec := Time_wall t / 1000000000 in
    let '(y, m, d) := Ref.civil (sec / 86400) in
    let tod := sec mod 86400 in
    Ref.pad 4 y +:+ "-" +:+ Ref.pad 2 m +:+ "-" +:+ Ref.pad 2 d +:+ " "
      +:+ Ref.pad 2 (tod / 3600) +:+ ":" +:+ Ref.pad 2 (tod mod 3600 / 60)
      +:+ ":" +:+ Ref.pad 2 (tod mod 60)
  else "layout outside the reference model".

Definition lib : FmtLib := Build_FmtLib StatusText Time_Format Duration_String.

End RefFmt.

(** ** The verb [%q]

    [strconv.Quote] on ASCII text: the text in double quotes, with a
    backslash before each double quote and each backslash, the printable
    bytes as they are, and the other bytes as escapes.  (On bytes above 127
    the function decodes UTF-8, which is not modelled: such a byte is
    written as the escape of an invalid byte.) *)

Module Strconv.

Definition dquote : ascii := ascii_of_nat 34.
Definition backslash : ascii := ascii_of_nat 92.

Definition hex_digit (n : nat) : ascii :=
  nth n (list_ascii_of_string "0123456789abcdef") "0"%char.

(** [unicode.IsPrint] on an ASCII byte. *)
Definition IsPrint (c : ascii) : bool :=
  (32 <=? nat_of_ascii c)%nat && (nat_of_ascii c <? 127)%nat.

(** [appendEscapedRune] for the quote character [dquote]. *)
Definition escape_byte (c : ascii) : string :=
  if Ascii.eqb c dquote || Ascii.eqb c backslash then
    String backslash (String c EmptyString)
  else if IsPrint c then String c EmptyString
  else
    match nat_of_ascii c with
    | 7%nat => String backslash "a"
    | 8%nat => String backslash "b"
    | 12%nat => String backslash "f"
    | 10%nat => String backslash "n"
    | 13%nat => String backslash "r"
    | 9%nat => String backslash "t"
    | 11%nat => String backslash "v"
    | n =>
        String backslash
          (String "x"
             (String (hex_digit (n / 16))
                (String (hex_digit (n mod 16)) EmptyString)))
    end.

Fixpoint escape (s : string) : string :=
  match s with
  | EmptyString => EmptyString
  | String c rest => escape_byte c +:+ escape rest
  end.

(** [strconv.Quote]. *)
Definition Quote (s : string) : string :=
  String dquote (escape s +:+ String dquote EmptyString).

(** A text that [%q] leaves as it is between the quotes: printable ASCII
    without double quote and backslash. *)
Definition plain_byte (c : ascii) : bool :=
  IsPrint c && negb (Ascii.eqb c dquote) && negb (Ascii.eqb c backslash).

Definition plain (s : string) : bool :=
  forallb plain_byte (list_ascii_of_string s).

(** Whether [sub] occurs in [s]. *)
Fixpoint occurs (sub s : string) : bool :=
  String.prefix sub s
  || match s with
     | EmptyString => false
     | String _ rest => occurs sub rest
     end.

End Strconv.

(** The library prints a text with the verb [%q] as Go does. *)
Definition quotes_like_Go `{GoLib} (s : string) : Prop :=
  strconv_Quote s = Strconv.Quote s.

(** ** A reference instance with quotes in the query

    The instance [Ref] with two changes: the verb [%q] is [Strconv.Quote],
    and a URL may carry double quotes in its query string, which
    [url.Parse] accepts and [URL.String] writes back as they are. *)

Module RefQ.

Definition in_query_alphabet (c : ascii) : bool :=
  Ref.in_alphabet c || Ascii.eqb c Strconv.dquote.

(** The part before the first [?] is written in the alphabet of [Ref]
    without [#]; the query may add double quotes. *)
Definition supported (s : string) : bool :=
  let '(before, query, _) := Ref.Cut "?" s in
  forallb Ref.in_alphabet (list_ascii_of_string before)
  && forallb in_query_alphabet (list_ascii_of_string query)
  && (Ref.Count "#" s =? 0)%nat.

(** [url.Parse]. *)
Definition Parse (rawURL : string) : url_URL + error :=
  if negb (supported rawURL) then
    inr (errors_New ("parse " +:+ Strconv.Quote rawURL
                       +:+ ": outside the alphabet of the reference model"))
  else
    match Ref.parse rawURL with
    | inr err =>
        inr (wrapError ("parse " +:+ Strconv.Quote rawURL +:+ ": "
                          +:+ error_Error err) err)
    | inl url => inl url
    end.

(** [http.NewRequestWithContext(ctx, method, url, nil)]. *)
Definition NewRequestWithContext (ctx : Context) (method url : string)
  : http_Request + error :=
  let method := if String.eqb method "" then "GET" else method in
  if negb (forallb validHeaderFieldByte (list_ascii_of_string method)) then
    inr (errors_New ("net/http: invalid method " +:+ Strconv.Quote method))
  else
    match ctx with
    | context_nil => inr (errors_New "net/http: nil Context")
    | _ =>
        match Parse url with
        | inr err => inr err
        | inl u =>
            inl {| Request_ctx := ctx; Request_Method := method;
                   Request_URL := u; Request_Header := ∅;
                   Request_Host := Ref.removeEmptyPort (URL_Host u) |}
        end
    end.

Definition lib : GoLib :=
  Build_GoLib Parse Ref.URL_String Ref.URL_Hostname Strconv.Quote
    Ref.Time_String Ref.Name_String NewRequestWithContext.

(** A URL whose query holds a quoted word, and its configuration. *)
Definition url_quoted : string :=
  "https://example.com/search?q=" +:+ String Strconv.dquote "go"
    +:+ String Strconv.dquote EmptyString.

Definition config_quoted : Config :=
  Examples.config_of url_quoted (5 * time_Second) [200].

(** The monitor NewMonitor builds from [config_quoted]. *)
Definition monitor_quoted : Monitor :=
  {| Monitor_client := Monitor_client Examples.monitor_query;
     Monitor_config := config_quoted |}.

End RefQ.

(** ** Counting the events of a run *)

Definition is_Do (ev : Event) : bool :=
  match ev with EvDo _ _ => true | _ => false end.

Definition is_Copy (ev : Event) : bool :=
  match ev with EvCopy _ => true | _ => false end.

Definition is_Close (ev : Event) : bool :=
  match ev with EvClose _ => true | _ => false end.

Definition is_Now (ev : Event) : bool :=
  match ev with EvNow _ => true | _ => false end.

Definition is_Verify (ev : Event) : bool :=
  match ev with EvVerify _ _ => true | _ => false end.

(** The events certInfo can cause. *)
Definition is_cert_event (ev : Event) : bool :=
  match ev with
  | EvNow _ | EvSystemCertPool | EvVerify _ _ => true
  | _ => false
  end.

Definition count_events (p : Event -> bool) (evs : list Event) : nat :=
  length (List.filter p evs).

(** ** Proof steps *)

(** Replace the call of certInfo in the goal by what it returns; [returns]
    is the fact, for the chain at hand, that the call returns. *)
Ltac certInfo_step E returns :=
  match goal with
  | |- context [certInfo E _ ?host ?w] =>
      let ci := fresh "ci" in
      let evs := fresh "evs" in
      destruct (returns host w) as (ci & evs & ->)
  end.

(** Close a goal that asks for the events a run appended to the trace. *)
Ltac trace_eq := simpl; rewrite <- ?app_assoc; reflexivity.

(** * Properties of the monitor factory *)

Section FactoryFacts.
Context `{GoLib}.

Lemma sanitizeURL_parse_error rawURL err :
  url_Parse rawURL = inr err -> sanitizeURL rawURL = ("", Some err).
Proof. intros Hp. unfold sanitizeURL. now rewrite Hp. Qed.

Lemma sanitizeURL_accepts rawURL u :
  url_Parse rawURL = inl u -> URL_Scheme u <> "" -> URL_Host u <> "" ->
  sanitizeURL rawURL = (URL_String u, None).
Proof.
  intros Hp Hs Hh. unfold sanitizeURL. rewrite Hp.
  destruct (decide (URL_Scheme u = "")); [contradiction|].
  destruct (decide (URL_Host u = "")); [contradiction|reflexivity].
Qed.

Lemma sanitizeURL_rejects rawURL :
  url_rejected rawURL ->
  exists err, sanitizeURL rawURL = ("", Some err).
Proof.
  unfold url_rejected, sanitizeURL.
  destruct (url_Parse rawURL) as [u|err]; [|eauto].
  intros [Hs|Hh].
  - destruct (decide (URL_Scheme u = "")); [eauto|contradiction].
  - destruct (decide (URL_Scheme u = "")); [eauto|].
    destruct (decide (URL_Host u = "")); [eauto|contradiction].
Qed.

Lemma url_rejected_dec rawURL :
  {url_rejected rawURL} + {~ url_rejected rawURL}.
Proof.
  unfold url_rejected.
  destruct (url_Parse rawURL) as [u|err]; [|left; exact I].
  destruct (decide (URL_Scheme u = "")); [left; tauto|].
  destruct (decide (URL_Host u = "")); [left; tauto|right; tauto].
Qed.

Lemma url_accepted_inv rawURL :
  ~ url_rejected rawURL ->
  exists u,
    url_Parse rawURL = inl u /\ URL_Scheme u <> "" /\ URL_Host u <> "".
Proof.
  unfold url_rejected. destruct (url_Parse rawURL) as [u|err].
  - intros Hn. exists u. tauto.
  - intros Hn. destruct Hn. exact I.
Qed.

Lemma sanitizeURL_error_iff rawURL :
  snd (sanitizeURL rawURL) <> None <-> url_rejected rawURL.
Proof.
  split.
  - intros Herr. destruct (url_rejected_dec rawURL) as [|Hok]; [assumption|].
    destruct (url_accepted_inv _ Hok) as (u & Hp & Hs & Hh).
    rewrite (sanitizeURL_accepts _ _ Hp Hs Hh) in Herr. now destruct Herr.
  - intros Hr. destruct (sanitizeURL_rejects _ Hr) as [err ->]. discriminate.
Qed.

(** What NewMonitor returns, case by case. *)
Lemma NewMonitor_rejects config :
  config_rejected config -> exists err, NewMonitor config = (None, Some err).
Proof.
  intros Hr. unfold NewMonitor.
  destruct (decide (Config_Method config = "")); [eauto|].
  destruct (decide (Config_RequestTimeout config = 0)) as [Hz|Hz].
  - destruct (decide (10 * time_Second < 0)) as [Hneg|_];
      [unfold time_Second in Hneg; lia|].
    destruct Hr as [Hm|[Ht|Hu]]; [contradiction|lia|].
    destruct (sanitizeURL_rejects _ Hu) as [err ->]. eauto.
  - destruct (decide (Config_RequestTimeout config < 0)); [eauto|].
    destruct Hr as [Hm|[Ht|Hu]]; [contradiction|lia|].
    destruct (sanitizeURL_rejects _ Hu) as [err ->]. eauto.
Qed.

Lemma NewMonitor_accepts config :
  ~ config_rejected config ->
  exists u m,
    url_Parse (Config_URL config) = inl u
    /\ NewMonitor config = (Some m, None)
    /\ Config_URL (Monitor_config m) = URL_String u
    /\ Config_Method (Monitor_config m) = Config_Method config
    /\ Config_RequestTimeout (Monitor_config m) = effective_timeout config
    /\ Client_Timeout (Monitor_client m) = effective_timeout config
    /\ Config_UpStatusCodes (Monitor_config m) = effective_codes config.
Proof.
  intros Hn. unfold config_rejected in Hn.
  destruct (url_rejected_dec (Config_URL config)) as [|Hok]; [tauto|].
  destruct (url_accepted_inv _ Hok) as (u & Hp & Hs & Hh).
  exists u. unfold NewMonitor, effective_timeout, effective_codes.
  rewrite (sanitizeURL_accepts _ _ Hp Hs Hh).
  destruct (decide (Config_Method config = "")); [tauto|].
  destruct (decide (Config_RequestTimeout config = 0)) as [Hz|Hz].
  - destruct (decide (10 * time_Second < 0)) as [Hneg|_];
      [unfold time_Second in Hneg; lia|].
    eexists; repeat split; try reflexivity; assumption.
  - destruct (decide (Config_RequestTimeout config < 0)); [tauto|].
    eexists; repeat split; try reflexivity; assumption.
Qed.

Lemma config_rejected_dec config :
  {config_rejected config} + {~ config_rejected config}.
Proof.
  unfold config_rejected.
  destruct (decide (Config_Method config = "")); [left; tauto|].
  destruct (decide (Config_RequestTimeout config < 0)); [left; tauto|].
  destruct (url_rejected_dec (Config_URL config)); [left; tauto|right; tauto].
Qed.
End FactoryFacts.

Lemma NewMonitor_success_inv `{GoLib} config m :
  NewMonitor config = (Some m, None) ->
  ~ config_rejected config.
Proof.
  intros Hnew Hr. destruct (NewMonitor_rejects _ Hr) as [err Herr].
  congruence.
Qed.

(** C3: NewMonitor returns an error, and no monitor, exactly when the method
    is empty, or the timeout is negative, or the URL fails to parse, lacks a
    scheme or lacks a host; it never returns both or neither; a timeout of
    exactly zero becomes the default of ten seconds and the construction
    succeeds when the other fields are valid. *)
Theorem NewMonitor_error_iff_rejected (L : GoLib) (config : Config) :
  ((exists err, NewMonitor config = (None, Some err))
     <-> config_rejected config)
  /\ all_or_nothing (NewMonitor config)
  /\ (Config_RequestTimeout config = 0 ->
      Config_Method config <> "" ->
      ~ url_rejected (Config_URL config) ->
      exists m, NewMonitor config = (Some m, None)
        /\ Config_RequestTimeout (Monitor_config m) = 10 * time_Second
        /\ Client_Timeout (Monitor_client m) = 10 * time_Second).
Proof.
  split; [|split].
  - split; [|apply NewMonitor_rejects].
    intros [err Herr].
    destruct (config_rejected_dec config) as [|Hok]; [assumption|].
    destruct (NewMonitor_accepts _ Hok) as (u & m & _ & Hnew & _).
    congruence.
  - destruct (config_rejected_dec config) as [Hr|Hok].
    + right. now apply NewMonitor_rejects.
    + left. destruct (NewMonitor_accepts _ Hok) as (u & m & _ & Hnew & _).
      eauto.
  - intros Hz Hm Hu.
    assert (Hok : ~ config_rejected config).
    { unfold config_rejected.
      intros [?|[?|?]]; [contradiction|lia|contradiction]. }
    destruct (NewMonitor_accepts _ Hok)
      as (u & m & _ & Hnew & _ & _ & Ht & Hc & _).
    exists m. unfold effective_timeout in Ht, Hc.
    destruct (decide (Config_RequestTimeout config = 0)); [|contradiction].
    auto.
Qed.

Lemma NewMonitor_error_iff_rejected_witness :
  exists m, @NewMonitor Ref.lib Examples.config_defaults = (Some m, None)
    /\ Config_RequestTimeout (Monitor_config m) = 10 * time_Second
    /\ Client_Timeout (Monitor_client m) = 10 * time_Second.
Proof.
  apply (proj2 (proj2
           (NewMonitor_error_iff_rejected Ref.lib Examples.config_defaults))).
  - reflexivity.
  - discriminate.
  - unfold url_rejected. vm_compute. intros [Hs|Hh]; discriminate.
Defined.

(** C8: sanitizeURL fails exactly when parsing fails, or the parsed scheme is
    empty, or the parsed host is empty; when it succeeds it returns the
    re-serialization of the parsed URL, and that string is what NewMonitor
    stores in the configuration of the monitor in place of the input; the
    input https://example.com is stored as https://example.com. *)
Theorem sanitizeURL_contract :
  (forall (L : GoLib) (rawURL : string),
      (snd (sanitizeURL rawURL) <> None <-> url_rejected rawURL)
      /\ (forall u, url_Parse rawURL = inl u -> ~ url_rejected rawURL ->
                    sanitizeURL rawURL = (URL_String u, None)))
  /\ (forall (L : GoLib) (config : Config) (m : Monitor),
         NewMonitor config = (Some m, None) ->
         exists u, url_Parse (Config_URL config) = inl u
           /\ sanitizeURL (Config_URL config) = (URL_String u, None)
           /\ Config_URL (Monitor_config m) = URL_String u)
  /\ @sanitizeURL Ref.lib "https://example.com"
     = ("https://example.com", None)
  /\ (exists m,
         @NewMonitor Ref.lib Examples.config_defaults = (Some m, None)
         /\ Config_URL (Monitor_config m) = "https://example.com").
Proof.
  split; [|split; [|split]].
  - intros L rawURL. split; [apply sanitizeURL_error_iff|].
    intros u Hp Hok. destruct (url_accepted_inv _ Hok) as (u' & Hp' & Hs & Hh).
    rewrite Hp in Hp'. injection Hp' as <-.
    now apply sanitizeURL_accepts.
  - intros L config m Hnew.
    pose proof (NewMonitor_success_inv _ _ Hnew) as Hok.
    destruct (NewMonitor_accepts _ Hok) as (u & m' & Hp & Hnew' & Hurl & _).
    rewrite Hnew in Hnew'. injection Hnew' as <-.
    exists u. split; [assumption|]. split; [|assumption].
    destruct (url_accepted_inv (Config_URL config)) as (u' & Hp' & Hs & Hh).
    { intros Hr. apply Hok. unfold config_rejected. tauto. }
    rewrite Hp in Hp'. injection Hp' as <-.
    now apply sanitizeURL_accepts.
  - vm_compute. reflexivity.
  - vm_compute. eexists. split; reflexivity.
Qed.

Lemma sanitizeURL_contract_witness :
  exists u, @url_Parse Ref.lib "https://example.com" = inl u
    /\ @sanitizeURL Ref.lib "https://example.com"
       = (@URL_String Ref.lib u, None).
Proof.
  destruct (proj1 sanitizeURL_contract Ref.lib "https://example.com")
    as [_ Hok].
  eexists. split; [vm_compute; reflexivity|].
  apply Hok; [vm_compute; reflexivity|].
  unfold url_rejected. vm_compute. intros [Hs|Hh]; discriminate.
Defined.

(** * Properties of the status classifier *)

Lemma isSuccessStatus_nonempty m code :
  Config_UpStatusCodes (Monitor_config m) <> [] ->
  Monitor_isSuccessStatus m code = true
    <-> In code (Config_UpStatusCodes (Monitor_config m)).
Proof.
  intros Hne. unfold Monitor_isSuccessStatus.
  destruct (decide (length (Config_UpStatusCodes (Monitor_config m)) = 0%nat))
    as [Hlen|_].
  - destruct (Config_UpStatusCodes (Monitor_config m));
      [contradiction|discriminate].
  - rewrite existsb_exists. split.
    + intros (x & Hin & Heq). apply Z.eqb_eq in Heq. now subst.
    + intros Hin. exists code. split; [assumption|apply Z.eqb_refl].
Qed.

Lemma isSuccessStatus_empty m code :
  Config_UpStatusCodes (Monitor_config m) = [] ->
  Monitor_isSuccessStatus m code = true <-> 200 <= code < 300.
Proof.
  intros Hnil. unfold Monitor_isSuccessStatus. rewrite Hnil. simpl.
  rewrite andb_true_iff, Z.leb_le, Z.ltb_lt. tauto.
Qed.

Lemma NewMonitor_codes `{GoLib} config m :
  NewMonitor config = (Some m, None) ->
  Config_UpStatusCodes (Monitor_config m) = effective_codes config.
Proof.
  intros Hnew. pose proof (NewMonitor_success_inv _ _ Hnew) as Hok.
  destruct (NewMonitor_accepts _ Hok) as (u & m' & _ & Hnew' & Hrest).
  rewrite Hnew in Hnew'. injection Hnew' as <-. tauto.
Qed.

(** The stored set of a monitor built by NewMonitor is never empty, so the
    range of isSuccessStatus is out of its reach. *)
Lemma NewMonitor_codes_nonempty `{GoLib} config m :
  NewMonitor config = (Some m, None) ->
  Config_UpStatusCodes (Monitor_config m) <> [].
Proof.
  intros Hnew. rewrite (NewMonitor_codes _ _ Hnew). unfold effective_codes.
  destruct (decide (length (Config_UpStatusCodes config) = 0%nat)) as [|Hlen];
    [discriminate|].
  intros Hnil. rewrite Hnil in Hlen. now apply Hlen.
Qed.

Lemma NewMonitor_config_defaults :
  @NewMonitor Ref.lib Examples.config_defaults
  = (Some Examples.monitor_defaults, None).
Proof. vm_compute. reflexivity. Qed.

(** C2 does not hold as stated: a monitor that NewMonitor builds from a
    configuration without accepted status codes classifies 204 as down,
    although 204 lies in the range from 200 to 299. *)
Lemma NewMonitor_default_is_not_the_range :
  ~ (forall (L : GoLib) (config : Config) (m : Monitor) (code : Z),
        NewMonitor config = (Some m, None) ->
        Config_UpStatusCodes config = [] ->
        (Monitor_isSuccessStatus m code = true <-> 200 <= code < 300)).
Proof.
  intros Hclaim.
  specialize (Hclaim Ref.lib Examples.config_defaults
                Examples.monitor_defaults 204
                NewMonitor_config_defaults eq_refl).
  assert (Hup : Monitor_isSuccessStatus Examples.monitor_defaults 204 = true)
    by (apply Hclaim; lia).
  discriminate Hup.
Qed.

(** C2, amended: with the accepted set {200} a status code is up exactly
    when it is 200; a monitor built by NewMonitor from a configuration
    without accepted status codes stores the codes 200 and 201, and a status
    code is up exactly when it is 200 or 201; the range from 200 to 299 is
    what isSuccessStatus applies to a monitor whose stored set is empty,
    and NewMonitor builds no such monitor. *)
Theorem isSuccessStatus_classification (L : GoLib) :
  (forall (m : Monitor) (code : Z),
      Config_UpStatusCodes (Monitor_config m) <> [] ->
      (forall c, In c (Config_UpStatusCodes (Monitor_config m)) <-> c = 200) ->
      (Monitor_isSuccessStatus m code = true <-> code = 200))
  /\ (forall (config : Config) (m : Monitor) (code : Z),
         NewMonitor config = (Some m, None) ->
         Config_UpStatusCodes config = [] ->
         Config_UpStatusCodes (Monitor_config m) = [200; 201]
         /\ (Monitor_isSuccessStatus m code = true
               <-> code = 200 \/ code = 201))
  /\ (forall (m : Monitor) (code : Z),
         Config_UpStatusCodes (Monitor_config m) = [] ->
         (Monitor_isSuccessStatus m code = true <-> 200 <= code < 300))
  /\ (forall (config : Config) (m : Monitor),
         NewMonitor config = (Some m, None) ->
         Config_UpStatusCodes (Monitor_config m) <> []).
Proof.
  split; [|split; [|split]]; [| | |apply @NewMonitor_codes_nonempty].
  - intros m code Hne Hset. rewrite (isSuccessStatus_nonempty _ _ Hne).
    apply Hset.
  - intros config m code Hnew Hnil.
    pose proof (NewMonitor_codes _ _ Hnew) as Hcodes.
    unfold effective_codes in Hcodes. rewrite Hnil in Hcodes. simpl in Hcodes.
    split; [assumption|].
    rewrite isSuccessStatus_nonempty by (rewrite Hcodes; discriminate).
    rewrite Hcodes. simpl. intuition congruence.
  - intros m code. apply isSuccessStatus_empty.
Qed.

Lemma isSuccessStatus_classification_witness :
  Config_UpStatusCodes (Monitor_config Examples.monitor_defaults) = [200; 201]
  /\ (Monitor_isSuccessStatus Examples.monitor_defaults 204 = true
        <-> 204 = 200 \/ 204 = 201).
Proof.
  apply (proj1 (proj2 (isSuccessStatus_classification Ref.lib))
           Examples.config_defaults).
  - vm_compute. reflexivity.
  - reflexivity.
Defined.

(** * Properties of the certificate inspection *)

Lemma add_intermediates rest opts :
  fold_left VerifyOptions_add_intermediate rest opts
  = {| VerifyOptions_DNSName := VerifyOptions_DNSName opts;
       VerifyOptions_Roots := VerifyOptions_Roots opts;
       VerifyOptions_Intermediates :=
         VerifyOptions_Intermediates opts ++ rest |}.
Proof.
  revert opts. induction rest as [|c rest IH]; intros opts; simpl.
  - rewrite app_nil_r. now destruct opts.
  - rewrite IH. simpl. unfold CertPool_AddCert.
    now rewrite <- app_assoc.
Qed.

Section CertInfoFacts.
Context `{GoLib} (E : Env).

(** certInfo on a chain with a leaf, written out: the value it returns and
    the world it leaves. *)
Lemma certInfo_run cert rest host w :
  certInfo E (Some {| ConnectionState_PeerCertificates := cert :: rest |})
    host w
  = let now := Env_clock E (World_ticks w) in
    if Time_Before now (Certificate_NotBefore cert) then
      (Returned (Some (CertInfo_invalid (leaf_info cert)
         ("certificate not yet valid: "
            +:+ Time_String (Certificate_NotBefore cert)))),
       advance w 1 [EvNow now])
    else if Time_After now (Certificate_NotAfter cert) then
      (Returned (Some (CertInfo_invalid (leaf_info cert)
         ("certificate has expired: "
            +:+ Time_String (Certificate_NotAfter cert)))),
       advance w 1 [EvNow now])
    else
      match Env_SystemCertPool E with
      | inr err =>
          (Returned (Some (CertInfo_invalid (leaf_info cert)
             ("error loading system root certificates: "
                +:+ error_Error err))),
           advance w 1 [EvNow now; EvSystemCertPool])
      | inl roots =>
          match Env_Verify E cert (certInfo_opts host roots rest) with
          | Some err =>
              (Returned (Some (CertInfo_invalid (leaf_info cert)
                 ("hostname verification failed: " +:+ error_Error err))),
               advance w 1
                 [EvNow now; EvSystemCertPool;
                  EvVerify cert (certInfo_opts host roots rest)])
          | None =>
              (Returned (Some (leaf_info cert)),
               advance w 1
                 [EvNow now; EvSystemCertPool;
                  EvVerify cert (certInfo_opts host roots rest)])
          end
      end.
Proof.
  unfold certInfo. simpl.
  unfold bind, time_Now, x509_SystemCertPool, Certificate_Verify, emit, ret,
    bind, advance.
  simpl.
  destruct (Time_Before _ _); [reflexivity|].
  destruct (Time_After _ _); [reflexivity|].
  destruct (Env_SystemCertPool E) as [roots|err]; simpl.
  - rewrite add_intermediates. simpl.
    change (drop 0 rest) with rest. fold (certInfo_opts host roots rest).
    destruct (Env_Verify E cert (certInfo_opts host roots rest));
      simpl; rewrite <- !app_assoc; reflexivity.
  - rewrite <- !app_assoc. reflexivity.
Qed.

Lemma certInfo_empty_chain host w :
  certInfo E (Some {| ConnectionState_PeerCertificates := [] |}) host w
  = (Panicked "index out of range [0] with length 0", w).
Proof. reflexivity. Qed.
End CertInfoFacts.

Section CertInfoReturns.
Context `{GoLib} (E : Env).

Lemma invalid_message_nonempty (prefix detail : string) :
  prefix <> "" -> prefix +:+ detail <> "".
Proof. destruct prefix; [congruence|discriminate]. Qed.

(** certInfo returns a structure whenever the chain has a leaf, after one
    clock reading. *)
Lemma certInfo_returns cert rest host w :
  exists ci evs,
    certInfo E (Some {| ConnectionState_PeerCertificates := cert :: rest |})
      host w = (Returned (Some ci), advance w 1 evs).
Proof.
  rewrite certInfo_run. cbv zeta.
  destruct (Time_Before _ _); [eauto|].
  destruct (Time_After _ _); [eauto|].
  destruct (Env_SystemCertPool E) as [roots|err]; [|eauto].
  destruct (Env_Verify E cert _); eauto.
Qed.
End CertInfoReturns.

(** C4: certInfo applies its rules in the order not-yet-valid, expired, chain
    verification, and the first rule that applies decides.  When the clock
    reading is before not-before, the result is invalid with the message
    "certificate not yet valid" followed by the not-before time, and nothing
    but the clock was consulted.  Otherwise, when the reading is after
    not-after, the result is invalid with the message "certificate has
    expired" followed by the not-after time, and again nothing but the clock
    was consulted.  The trust store is loaded and the chain verified only
    when the reading is within the validity window. *)
Theorem certInfo_first_rule_wins (L : GoLib) (E : Env)
    (cert : x509_Certificate) (rest : list x509_Certificate)
    (host : string) (w : World) :
  let now := Env_clock E (World_ticks w) in
  let tlsState := {| ConnectionState_PeerCertificates := cert :: rest |} in
  exists ci evs,
    certInfo E (Some tlsState) host w = (Returned (Some ci), advance w 1 evs)
    /\ (Time_Before now (Certificate_NotBefore cert) = true ->
        CertInfo_IsValid ci = false
        /\ CertInfo_ErrorMsg ci
           = "certificate not yet valid: "
               +:+ Time_String (Certificate_NotBefore cert)
        /\ evs = [EvNow now])
    /\ (Time_Before now (Certificate_NotBefore cert) = false ->
        Time_After now (Certificate_NotAfter cert) = true ->
        CertInfo_IsValid ci = false
        /\ CertInfo_ErrorMsg ci
           = "certificate has expired: "
               +:+ Time_String (Certificate_NotAfter cert)
        /\ evs = [EvNow now])
    /\ (Time_Before now (Certificate_NotBefore cert) = false ->
        Time_After now (Certificate_NotAfter cert) = false ->
        match Env_SystemCertPool E with
        | inl roots =>
            evs = [EvNow now; EvSystemCertPool;
                   EvVerify cert (certInfo_opts host roots rest)]
        | inr _ => evs = [EvNow now; EvSystemCertPool]
        end)
    /\ (In EvSystemCertPool evs \/ (exists c opts, In (EvVerify c opts) evs) ->
        Time_Before now (Certificate_NotBefore cert) = false
        /\ Time_After now (Certificate_NotAfter cert) = false).
Proof.
  intros now tlsState. unfold tlsState. rewrite certInfo_run. cbv zeta.
  fold now.
  destruct (Time_Before now _) eqn:Hb.
  { eexists _, _. split; [reflexivity|]. simpl.
    split; [auto|]. split; [discriminate|]. split; [discriminate|].
    intros [Hin|(c & o & Hin)]; simpl in Hin; intuition discriminate. }
  destruct (Time_After now _) eqn:Ha.
  { eexists _, _. split; [reflexivity|]. simpl.
    split; [discriminate|]. split; [auto|]. split; [discriminate|].
    intros [Hin|(c & o & Hin)]; simpl in Hin; intuition discriminate. }
  destruct (Env_SystemCertPool E) as [roots|err].
  - destruct (Env_Verify E cert _);
      eexists _, _; (split; [reflexivity|]); simpl;
      (split; [discriminate|]); (split; [discriminate|]); auto.
  - eexists _, _. split; [reflexivity|]. simpl.
    split; [discriminate|]. split; [discriminate|]. auto.
Qed.

Lemma certInfo_first_rule_wins_witness :
  exists ci,
    fst (@certInfo Ref.lib (Examples.env_tls [])
           (Some {| ConnectionState_PeerCertificates :=
                      [Examples.leaf_expired] |})
           "example.com" World_init)
    = Returned (Some ci)
    /\ CertInfo_IsValid ci = false
    /\ CertInfo_ErrorMsg ci
       = "certificate has expired: 2015-04-12 23:59:59 +0000 UTC".
Proof.
  destruct (certInfo_first_rule_wins Ref.lib (Examples.env_tls [])
              Examples.leaf_expired [] "example.com" World_init)
    as (ci & evs & Hrun & _ & Hexpired & _).
  exists ci. rewrite Hrun. split; [reflexivity|].
  destruct Hexpired as (Hv & Hmsg & _); [reflexivity|reflexivity|].
  split; [exact Hv|]. rewrite Hmsg. vm_compute. reflexivity.
Defined.

(** C6: certInfo is total on chains with a leaf and has no error return: it
    returns a structure (never nil, never a panic) whose subject, issuer,
    validity window and DNS names are those of the leaf.  The result is
    invalid exactly when the leaf is not yet valid, or has expired, or the
    trust store cannot be loaded, or the chain verification fails; an
    invalid result carries a non-empty message and a valid one an empty
    message. *)
Theorem certInfo_total (L : GoLib) (E : Env)
    (cert : x509_Certificate) (rest : list x509_Certificate)
    (host : string) (w : World) :
  let now := Env_clock E (World_ticks w) in
  exists ci w',
    certInfo E (Some {| ConnectionState_PeerCertificates := cert :: rest |})
      host w = (Returned (Some ci), w')
    /\ CertInfo_Subject ci = Name_String (Certificate_Subject cert)
    /\ CertInfo_Issuer ci = Name_String (Certificate_Issuer cert)
    /\ CertInfo_ValidFrom ci = Certificate_NotBefore cert
    /\ CertInfo_ValidTo ci = Certificate_NotAfter cert
    /\ CertInfo_DNSNames ci = Certificate_DNSNames cert
    /\ (CertInfo_IsValid ci = false <->
          Time_Before now (Certificate_NotBefore cert) = true
          \/ Time_After now (Certificate_NotAfter cert) = true
          \/ (exists err, Env_SystemCertPool E = inr err)
          \/ (exists roots err,
                 Env_SystemCertPool E = inl roots
                 /\ Env_Verify E cert (certInfo_opts host roots rest)
                    = Some err))
    /\ (CertInfo_IsValid ci = false -> CertInfo_ErrorMsg ci <> "")
    /\ (CertInfo_IsValid ci = true -> CertInfo_ErrorMsg ci = "").
Proof.
  intros now. rewrite certInfo_run. cbv zeta. fold now.
  destruct (Time_Before now _) eqn:Hb.
  { eexists _, _. split; [reflexivity|]. simpl.
    do 5 (split; [reflexivity|]). split; [tauto|].
    split; [|discriminate].
    intros _. now apply invalid_message_nonempty. }
  destruct (Time_After now _) eqn:Ha.
  { eexists _, _. split; [reflexivity|]. simpl.
    do 5 (split; [reflexivity|]). split; [tauto|].
    split; [|discriminate].
    intros _. now apply invalid_message_nonempty. }
  destruct (Env_SystemCertPool E) as [roots|err] eqn:Hpool.
  - destruct (Env_Verify E cert _) as [err|] eqn:Hv;
      eexists _, _; (split; [reflexivity|]); simpl;
      do 5 (split; [reflexivity|]).
    + split; [split; [intros _; right; right; right; eauto|reflexivity]|].
      split; [|discriminate].
      intros _. now apply invalid_message_nonempty.
    + split; [|split; [discriminate|reflexivity]].
      split; [discriminate|].
      intros [Hf|[Hf|[(err & Herr)|(roots' & err & Hr & Herr)]]];
        try discriminate.
      injection Hr as <-. congruence.
  - eexists _, _. split; [reflexivity|]. simpl.
    do 5 (split; [reflexivity|]).
    split; [split; [intros _; right; right; left; eauto|reflexivity]|].
    split; [|discriminate].
    intros _. now apply invalid_message_nonempty.
Qed.

Lemma certInfo_total_witness :
  exists ci w',
    @certInfo Ref.lib (Examples.env_tls [])
      (Some {| ConnectionState_PeerCertificates :=
                 [Examples.leaf; Examples.intermediate] |})
      "wrong.example.org" World_init = (Returned (Some ci), w')
    /\ CertInfo_IsValid ci = false
    /\ CertInfo_ErrorMsg ci <> "".
Proof.
  destruct (certInfo_total Ref.lib (Examples.env_tls []) Examples.leaf
              [Examples.intermediate] "wrong.example.org" World_init)
    as (ci & w' & Hrun & _ & _ & _ & _ & _ & Hiff & Hmsg & _).
  exists ci, w'. split; [exact Hrun|].
  assert (Hinvalid : CertInfo_IsValid ci = false).
  { apply Hiff. right. right. right. eexists _, _.
    split; vm_compute; reflexivity. }
  split; [exact Hinvalid|]. exact (Hmsg Hinvalid).
Defined.

(** * Properties of the check executor *)

Section CheckFacts.
Context `{GoLib} (E : Env).

#[local] Arguments certInfo : simpl never.

(** Check written out: the value it returns and the world it leaves, up
    to the call of certInfo. *)
Lemma Monitor_Check_run m ctx w :
  Monitor_Check E m ctx w
  = let url := Config_URL (Monitor_config m) in
    match http_NewRequestWithContext ctx
            (Config_Method (Monitor_config m)) url with
    | inr err =>
        (Returned (None,
           Some (fmt_Errorf_w ("failed to create request for "
                                 +:+ strconv_Quote url +:+ ": ") err)), w)
    | inl req0 =>
        let stamp := Env_clock E (World_ticks w) in
        let start := Env_clock E (1 + World_ticks w) in
        let end_ := Env_clock E (2 + World_ticks w) in
        let c := Monitor_client m in
        let req := sent_request req0 stamp in
        let evs := [EvNow stamp; EvNow start; EvDo c req; EvNow end_] in
        match Env_Do E c req with
        | inr err =>
            (Returned (None,
               Some (fmt_Errorf_w ("failed to send request for "
                                     +:+ strconv_Quote url +:+ ": ") err)),
             advance w 3 evs)
        | inl resp =>
            let body := Response_Body resp in
            let result ci :=
              {| CheckResult_URL := url;
                 CheckResult_StatusCode := Response_StatusCode resp;
                 CheckResult_Start := start;
                 CheckResult_End := end_;
                 CheckResult_CertInfo := ci |} in
            match Body_err body with
            | Some err =>
                (Returned (None,
                   Some (fmt_Errorf_w ("failed to read response body for "
                                         +:+ strconv_Quote url +:+ ": ")
                           err)),
                 advance w 3 (evs ++ [EvCopy body; EvClose body]))
            | None =>
                match Response_TLS resp with
                | Some {| ConnectionState_PeerCertificates := _ :: _ |} =>
                    match certInfo E (Response_TLS resp)
                            (URL_Hostname
                               (Request_URL (Response_Request resp)))
                            (advance w 3 (evs ++ [EvCopy body])) with
                    | (Returned ci, w1) =>
                        (Returned (Some (result ci), None),
                         advance w1 0 [EvClose body])
                    | (Panicked msg, w1) =>
                        (Panicked msg, advance w1 0 [EvClose body])
                    end
                | _ =>
                    (Returned (Some (result None), None),
                     advance w 3 (evs ++ [EvCopy body; EvClose body]))
                end
            end
        end
    end.
Proof.
  unfold Monitor_Check, sent_request. cbv zeta.
  destruct (http_NewRequestWithContext _ _ _) as [req0|err]; [|reflexivity].
  unfold bind, time_Now, Client_Do, defer, io_Copy_Discard, Body_Close,
    bind, emit, ret, advance.
  simpl.
  destruct (Env_Do E _ _) as [resp|err]; simpl.
  2: { rewrite <- !app_assoc. reflexivity. }
  destruct (Body_err (Response_Body resp)) as [err|]; simpl.
  { rewrite <- !app_assoc. reflexivity. }
  destruct (Response_TLS resp) as [[[|cert rest]]|]; simpl.
  - rewrite <- !app_assoc. reflexivity.
  - rewrite <- !app_assoc. simpl.
    destruct (certInfo E _ _ _) as [[ci|msg] w1]; simpl;
      rewrite ?Nat.add_0_r; reflexivity.
  - rewrite <- !app_assoc. reflexivity.
Qed.
End CheckFacts.

Section CheckInversion.
Context `{GoLib} (E : Env).

(** Check never panics: the only call that could, certInfo, is made on
    chains with a leaf. *)
Lemma Monitor_Check_returns m ctx w :
  exists out w', Monitor_Check E m ctx w = (Returned out, w').
Proof.
  rewrite Monitor_Check_run. cbv zeta.
  destruct (http_NewRequestWithContext _ _ _) as [req0|err]; [|eauto].
  destruct (Env_Do E _ _) as [resp|err]; [|eauto].
  destruct (Body_err (Response_Body resp)); [eauto|].
  destruct (Response_TLS resp) as [[[|cert rest]]|]; [eauto| |eauto].
  certInfo_step E (certInfo_returns E cert rest).
  eauto.
Qed.

(** What a successful check went through. *)
Lemma Monitor_Check_success_inv m ctx w r w' :
  Monitor_Check E m ctx w = (Returned (Some r, None), w') ->
  exists req0 resp post,
    http_NewRequestWithContext ctx (Config_Method (Monitor_config m))
      (Config_URL (Monitor_config m)) = inl req0
    /\ Env_Do E (Monitor_client m)
         (sent_request req0 (Env_clock E (World_ticks w))) = inl resp
    /\ Body_err (Response_Body resp) = None
    /\ CheckResult_URL r = Config_URL (Monitor_config m)
    /\ CheckResult_StatusCode r = Response_StatusCode resp
    /\ CheckResult_Start r = Env_clock E (1 + World_ticks w)
    /\ CheckResult_End r = Env_clock E (2 + World_ticks w)
    /\ (CheckResult_CertInfo r <> None <->
          exists tlsState, Response_TLS resp = Some tlsState
            /\ (0 < length (ConnectionState_PeerCertificates tlsState))%nat)
    /\ World_trace w'
       = World_trace w
           ++ [EvNow (Env_clock E (World_ticks w));
               EvNow (CheckResult_Start r);
               EvDo (Monitor_client m)
                 (sent_request req0 (Env_clock E (World_ticks w)));
               EvNow (CheckResult_End r)]
           ++ post.
Proof.
  rewrite Monitor_Check_run. cbv zeta.
  destruct (http_NewRequestWithContext _ _ _) as [req0|err]; [|discriminate].
  destruct (Env_Do E _ _) as [resp|err] eqn:Hdo; [|discriminate].
  destruct (Body_err (Response_Body resp)) eqn:Hbody; [discriminate|].
  destruct (Response_TLS resp) as [[[|cert rest]]|] eqn:Htls.
  - intros [= <- <-]. exists req0, resp. eexists.
    split; [reflexivity|]. split; [exact Hdo|]. split; [exact Hbody|].
    do 4 (split; [reflexivity|]). simpl.
    split; [|reflexivity].
    split; [congruence|]. intros (tls & Heq & Hlen).
    rewrite Htls in Heq. injection Heq as <-. simpl in Hlen. lia.
  - certInfo_step E (certInfo_returns E cert rest).
    intros [= <- <-]. exists req0, resp. eexists.
    split; [reflexivity|]. split; [exact Hdo|]. split; [exact Hbody|].
    do 4 (split; [reflexivity|]). simpl.
    split; [|trace_eq].
    split; [|discriminate]. intros _. eexists. split; [exact Htls|].
    simpl. lia.
  - intros [= <- <-]. exists req0, resp. eexists.
    split; [reflexivity|]. split; [exact Hdo|]. split; [exact Hbody|].
    do 4 (split; [reflexivity|]). simpl.
    split; [|reflexivity].
    split; [congruence|]. intros (tls & Heq & _). congruence.
Qed.
End CheckInversion.

Lemma append_assoc (a b c : string) : (a +:+ b) +:+ c = a +:+ b +:+ c.
Proof.
  induction a as [|x a IH]; [reflexivity|].
  change (String x ((a +:+ b) +:+ c) = String x (a +:+ b +:+ c)).
  now rewrite IH.
Qed.

Lemma append_empty_r (a : string) : a +:+ "" = a.
Proof.
  induction a as [|x a IH]; [reflexivity|].
  change (String x (a +:+ "") = String x a). now rewrite IH.
Qed.

Lemma str_contains_trans (s t u : string) :
  str_contains s t -> str_contains t u -> str_contains s u.
Proof.
  intros (pre & post & ->) (pre' & post' & ->).
  exists (pre +:+ pre'), (post' +:+ post).
  now rewrite !append_assoc.
Qed.

(** The error Check builds around a cause reports the failure. *)
Lemma fmt_Errorf_w_reports `{GoLib} phrase url cause :
  reports_failure
    (fmt_Errorf_w (phrase +:+ strconv_Quote url +:+ ": ") cause)
    phrase url cause.
Proof.
  unfold reports_failure, fmt_Errorf_w. cbn [error_Unwrap error_Error].
  rewrite !append_assoc.
  assert (Hq : str_contains
                 (phrase +:+ strconv_Quote url +:+ ": " +:+ error_Error cause)
                 (strconv_Quote url))
    by (exists phrase, (": " +:+ error_Error cause); reflexivity).
  repeat split; [exact Hq|].
  intros Hurl. exact (str_contains_trans _ _ _ Hq Hurl).
Qed.

(** Every invocation of Check returns a result or an error, and each kind
    of failure is reported by an error around its cause. *)
Lemma Monitor_Check_failures (L : GoLib) (E : Env) (m : Monitor)
    (ctx : Context) (w : World) :
  let url := Config_URL (Monitor_config m) in
  let stamp := Env_clock E (World_ticks w) in
  let built :=
    http_NewRequestWithContext ctx (Config_Method (Monitor_config m)) url in
  exists out w',
    Monitor_Check E m ctx w = (Returned out, w')
    /\ all_or_nothing out
    /\ (forall cause,
           built = inr cause ->
           exists err, out = (None, Some err)
             /\ reports_failure err "failed to create request for " url
                  cause)
    /\ (forall req0 cause,
           built = inl req0 ->
           Env_Do E (Monitor_client m) (sent_request req0 stamp)
             = inr cause ->
           exists err, out = (None, Some err)
             /\ reports_failure err "failed to send request for " url cause)
    /\ (forall req0 resp cause,
           built = inl req0 ->
           Env_Do E (Monitor_client m) (sent_request req0 stamp)
             = inl resp ->
           Body_err (Response_Body resp) = Some cause ->
           exists err, out = (None, Some err)
             /\ reports_failure err "failed to read response body for " url
                  cause).
Proof.
  intros url stamp built.
  destruct (Monitor_Check_returns E m ctx w) as (out & w' & Hrun).
  exists out, w'. split; [exact Hrun|].
  rewrite Monitor_Check_run in Hrun. cbv zeta in Hrun.
  fold url in Hrun. fold built in Hrun. fold stamp in Hrun.
  destruct built as [req0|err0].
  2: { injection Hrun as <- <-. split; [right; eauto|].
       split; [|split; intros; discriminate].
       intros cause [= <-]. eexists. split; [reflexivity|].
       apply fmt_Errorf_w_reports. }
  destruct (Env_Do E _ _) as [resp|err1] eqn:Hdo.
  2: { injection Hrun as <- <-. split; [right; eauto|].
       split; [discriminate|]. split.
       - intros req0' cause [= <-] Hdo'. rewrite Hdo in Hdo'.
         injection Hdo' as <-. eexists. split; [reflexivity|].
         apply fmt_Errorf_w_reports.
       - intros req0' resp cause [= <-] Hdo'. congruence. }
  destruct (Body_err (Response_Body resp)) as [err2|] eqn:Hbody.
  { injection Hrun as <- <-. split; [right; eauto|].
    split; [discriminate|]. split.
    - intros req0' cause [= <-] Hdo'. congruence.
    - intros req0' resp' cause [= <-] Hdo' Hbody'.
      rewrite Hdo in Hdo'. injection Hdo' as <-.
      rewrite Hbody in Hbody'. injection Hbody' as <-.
      eexists. split; [reflexivity|]. apply fmt_Errorf_w_reports. }
  assert (Hsome : exists r, out = (Some r, None)).
  { destruct (Response_TLS resp) as [[[|cert rest]]|].
    - injection Hrun as <- <-. eauto.
    - match type of Hrun with
      | context [certInfo E _ ?host ?w1] =>
          destruct (certInfo_returns E cert rest host w1)
            as (ci & evs & Hci); rewrite Hci in Hrun
      end.
      injection Hrun as <- <-. eauto.
    - injection Hrun as <- <-. eauto. }
  split; [left; exact Hsome|]. split; [discriminate|]. split.
  - intros req0' cause [= <-] Hdo'. congruence.
  - intros req0' resp' cause [= <-] Hdo' Hbody'. congruence.
Qed.

(** An error that Check returns comes without a result and reports a
    failure of a check of the configured URL. *)
Lemma Monitor_Check_error_inv `{GoLib} (E : Env) m ctx w out w' err :
  Monitor_Check E m ctx w = (Returned out, w') ->
  snd out = Some err ->
  fst out = None
  /\ exists phrase cause,
       reports_failure err phrase (Config_URL (Monitor_config m)) cause.
Proof.
  rewrite Monitor_Check_run. cbv zeta.
  destruct (http_NewRequestWithContext _ _ _) as [req0|err0].
  2: { intros [= <- _] [= <-]. split; [reflexivity|].
       eexists _, _. apply fmt_Errorf_w_reports. }
  destruct (Env_Do E _ _) as [resp|err1].
  2: { intros [= <- _] [= <-]. split; [reflexivity|].
       eexists _, _. apply fmt_Errorf_w_reports. }
  destruct (Body_err (Response_Body resp)) as [err2|].
  { intros [= <- _] [= <-]. split; [reflexivity|].
    eexists _, _. apply fmt_Errorf_w_reports. }
  destruct (Response_TLS resp) as [[[|cert rest]]|].
  - intros [= <- _]. discriminate.
  - certInfo_step E (certInfo_returns E cert rest).
    intros [= <- _]. discriminate.
  - intros [= <- _]. discriminate.
Qed.

(** *** What the verb [%q] does to the URL *)

Lemma escape_plain s : Strconv.plain s = true -> Strconv.escape s = s.
Proof.
  unfold Strconv.plain. induction s as [|c s IH]; [reflexivity|].
  cbn [list_ascii_of_string forallb Strconv.escape].
  intros Hall. apply andb_true_iff in Hall as [Hc Hs].
  rewrite (IH Hs). unfold Strconv.plain_byte in Hc.
  apply andb_true_iff in Hc as [Hc Hb]. apply andb_true_iff in Hc as [Hp Hq].
  unfold Strconv.escape_byte. rewrite Hp.
  apply negb_true_iff in Hq. apply negb_true_iff in Hb. rewrite Hq, Hb.
  reflexivity.
Qed.

(** A plain text stands as it is between the quotes. *)
Lemma Quote_plain s :
  Strconv.plain s = true -> str_contains (Strconv.Quote s) s.
Proof.
  intros Hplain. unfold Strconv.Quote. rewrite (escape_plain _ Hplain).
  exists (String Strconv.dquote EmptyString),
         (String Strconv.dquote EmptyString).
  reflexivity.
Qed.

Lemma prefix_append sub post : String.prefix sub (sub +:+ post) = true.
Proof.
  induction sub as [|c sub IH].
  - now destruct post.
  - change (String c sub +:+ post) with (String c (sub +:+ post)).
    cbn [String.prefix]. destruct (ascii_dec c c); [exact IH|contradiction].
Qed.

(** [Strconv.occurs] finds every occurrence. *)
Lemma occurs_complete s sub :
  str_contains s sub -> Strconv.occurs sub s = true.
Proof.
  intros (pre & post & ->). induction pre as [|c pre IH].
  - change ("" +:+ sub +:+ post) with (sub +:+ post).
    destruct (sub +:+ post) eqn:Heq; cbn [Strconv.occurs];
      rewrite <- Heq, prefix_append; reflexivity.
  - change (String c pre +:+ sub +:+ post)
      with (String c (pre +:+ sub +:+ post)).
    cbn [Strconv.occurs]. rewrite IH. apply orb_true_r.
Qed.

Lemma NewMonitor_config_quoted :
  @NewMonitor RefQ.lib RefQ.config_quoted = (Some RefQ.monitor_quoted, None).
Proof. vm_compute. reflexivity. Qed.

(** C5 does not hold as stated: the monitor that NewMonitor builds for a URL
    with a quoted word in its query stores that URL unchanged, and when the
    connection is refused its check returns no result and an error that
    wraps the cause, but the text of the error does not contain the URL:
    the verb %q has put a backslash before each of its double quotes. *)
Lemma Check_error_text_escapes_URL :
  exists err w',
    Config_URL (Monitor_config RefQ.monitor_quoted) = RefQ.url_quoted
    /\ @Monitor_Check RefQ.lib Examples.env_refused RefQ.monitor_quoted
         context_Background World_init
       = (Returned (None, Some err), w')
    /\ error_Unwrap err = Some (errors_New "dial tcp: connection refused")
    /\ ~ str_contains (error_Error err) RefQ.url_quoted.
Proof.
  destruct (@Monitor_Check RefQ.lib Examples.env_refused RefQ.monitor_quoted
              context_Background World_init) as [o w'] eqn:Hrun.
  vm_compute in Hrun. injection Hrun as <- <-.
  eexists _, _. split; [reflexivity|]. split; [reflexivity|].
  split; [reflexivity|].
  intros Hin. apply occurs_complete in Hin. vm_compute in Hin.
  discriminate Hin.
Qed.

(** C5, amended: Check is all-or-nothing.  Every invocation returns, and
    what it returns is either a result and no error, or no result and an
    error.  When the round trip fails, and when reading the body fails, the
    result is nil and the error wraps the cause; its text is the phrase of
    the failed step, the target URL as the verb %q prints it (in double
    quotes, with a backslash before each double quote and backslash), a
    colon and the text of the cause.  So every error of a check contains
    the quoted URL, and it contains the URL itself when the URL is plain,
    that is, has no byte that %q escapes. *)
Theorem Check_all_or_nothing (L : GoLib) (E : Env) (m : Monitor)
    (ctx : Context) (w : World) :
  let url := Config_URL (Monitor_config m) in
  let stamp := Env_clock E (World_ticks w) in
  let built :=
    http_NewRequestWithContext ctx (Config_Method (Monitor_config m)) url in
  exists out w',
    Monitor_Check E m ctx w = (Returned out, w')
    /\ all_or_nothing out
    /\ (forall req0 cause,
           built = inl req0 ->
           Env_Do E (Monitor_client m) (sent_request req0 stamp)
             = inr cause ->
           exists err, out = (None, Some err)
             /\ error_Unwrap err = Some cause
             /\ error_Error err
                = "failed to send request for " +:+ strconv_Quote url
                    +:+ ": " +:+ error_Error cause)
    /\ (forall req0 resp cause,
           built = inl req0 ->
           Env_Do E (Monitor_client m) (sent_request req0 stamp)
             = inl resp ->
           Body_err (Response_Body resp) = Some cause ->
           exists err, out = (None, Some err)
             /\ error_Unwrap err = Some cause
             /\ error_Error err
                = "failed to read response body for " +:+ strconv_Quote url
                    +:+ ": " +:+ error_Error cause)
    /\ (quotes_like_Go url ->
        forall err, snd out = Some err ->
          fst out = None
          /\ str_contains (error_Error err) (Strconv.Quote url)
          /\ (Strconv.plain url = true ->
              str_contains (error_Error err) url)).
Proof.
  intros url stamp built.
  destruct (Monitor_Check_failures L E m ctx w)
    as (out & w' & Hrun & Haon & _ & Hsend & Hbody).
  exists out, w'. split; [exact Hrun|]. split; [exact Haon|].
  split; [|split].
  - intros req0 cause Hreq Hdo.
    destruct (Hsend req0 cause Hreq Hdo) as (err & -> & Hun & Htext & _).
    exists err. repeat split; assumption.
  - intros req0 resp cause Hreq Hdo Hb.
    destruct (Hbody req0 resp cause Hreq Hdo Hb)
      as (err & -> & Hun & Htext & _).
    exists err. repeat split; assumption.
  - intros Hgo err Herr.
    destruct (Monitor_Check_error_inv E _ _ _ _ _ _ Hrun Herr)
      as (Hnil & phrase & cause & _ & _ & Hquoted & _).
    fold url in Hquoted. rewrite Hgo in Hquoted.
    split; [exact Hnil|]. split; [exact Hquoted|].
    intros Hplain.
    exact (str_contains_trans _ _ _ Hquoted (Quote_plain _ Hplain)).
Qed.

Lemma Check_all_or_nothing_witness :
  exists err w',
    @Monitor_Check RefQ.lib Examples.env_refused Examples.monitor_defaults
      context_Background World_init
    = (Returned (None, Some err), w')
    /\ error_Unwrap err = Some (errors_New "dial tcp: connection refused")
    /\ str_contains (error_Error err) "https://example.com".
Proof.
  destruct (Check_all_or_nothing RefQ.lib Examples.env_refused
              Examples.monitor_defaults context_Background World_init)
    as (out & w' & Hrun & _ & Hsend & _ & Hgo).
  destruct (Hsend _ _ eq_refl eq_refl) as (err & -> & Hun & _).
  exists err, w'. split; [exact Hrun|]. split; [exact Hun|].
  destruct (Hgo eq_refl err eq_refl) as (_ & _ & Hplain).
  apply Hplain. reflexivity.
Defined.

(** C7: in every result that Check returns, the certificate information is
    present exactly when the response came over TLS and the server
    presented at least one peer certificate. *)
Theorem Check_CertInfo_iff_peer_certificate (L : GoLib) (E : Env)
    (m : Monitor) (ctx : Context) (w w' : World) (r : CheckResult) :
  Monitor_Check E m ctx w = (Returned (Some r, None), w') ->
  exists req0 resp,
    http_NewRequestWithContext ctx (Config_Method (Monitor_config m))
      (Config_URL (Monitor_config m)) = inl req0
    /\ Env_Do E (Monitor_client m)
         (sent_request req0 (Env_clock E (World_ticks w))) = inl resp
    /\ (CheckResult_CertInfo r <> None <->
          exists tlsState, Response_TLS resp = Some tlsState
            /\ (0 < length (ConnectionState_PeerCertificates tlsState))%nat).
Proof.
  intros Hrun.
  destruct (Monitor_Check_success_inv E _ _ _ _ _ Hrun)
    as (req0 & resp & post & Hreq & Hdo & _ & _ & _ & _ & _ & Hiff & _).
  eauto.
Qed.

Lemma Check_CertInfo_iff_peer_certificate_witness :
  exists r w',
    @Monitor_Check Ref.lib (Examples.env_tls [Examples.leaf])
      Examples.monitor_defaults context_Background World_init
    = (Returned (Some r, None), w')
    /\ exists req0 resp,
         @http_NewRequestWithContext Ref.lib context_Background "GET"
           "https://example.com" = inl req0
         /\ Env_Do (Examples.env_tls [Examples.leaf])
              (Monitor_client Examples.monitor_defaults)
              (sent_request req0 (Examples.clock 0)) = inl resp
         /\ (CheckResult_CertInfo r <> None <->
               exists tlsState, Response_TLS resp = Some tlsState
                 /\ (0 < length
                           (ConnectionState_PeerCertificates tlsState))%nat).
Proof.
  eexists _, _. split; [vm_compute; reflexivity|].
  eapply (Check_CertInfo_iff_peer_certificate Ref.lib
            (Examples.env_tls [Examples.leaf]) Examples.monitor_defaults
            context_Background World_init).
  vm_compute. reflexivity.
Defined.

(** C10: certInfo indexes the chain at position 0 without a guard, and on an
    empty chain that index is out of range; on a chain with at least one
    certificate the index is in bounds and certInfo returns; Check calls
    certInfo only on such chains, so no invocation of Check panics. *)
Theorem certInfo_index_in_bounds (L : GoLib) (E : Env) :
  (forall host w,
      certInfo E (Some {| ConnectionState_PeerCertificates := [] |}) host w
      = (Panicked "index out of range [0] with length 0", w))
  /\ (forall tlsState host w,
         (0 < length (ConnectionState_PeerCertificates tlsState))%nat ->
         exists ci w', certInfo E (Some tlsState) host w
                       = (Returned (Some ci), w'))
  /\ (forall m ctx w,
         exists out w', Monitor_Check E m ctx w = (Returned out, w')).
Proof.
  split; [|split].
  - intros host w. apply certInfo_empty_chain.
  - intros [[|cert rest]] host w Hlen; simpl in Hlen; [lia|].
    destruct (certInfo_returns E cert rest host w) as (ci & evs & Hci).
    eauto.
  - intros m ctx w. apply Monitor_Check_returns.
Qed.

Lemma certInfo_index_in_bounds_witness :
  exists ci w',
    @certInfo Ref.lib Examples.env_plain
      (Some {| ConnectionState_PeerCertificates := [Examples.leaf] |})
      "example.com" World_init = (Returned (Some ci), w').
Proof.
  apply (proj1 (proj2 (certInfo_index_in_bounds Ref.lib Examples.env_plain))).
  simpl. lia.
Defined.

(** * Time stamps of a result *)

Lemma subMono_nonneg t u : u <= t -> 0 <= subMono t u.
Proof.
  intros Hle. unfold subMono.
  destruct (wrap64 (t - u) <? 0) eqn:Hneg; simpl.
  - destruct (u <? t) eqn:Hlt; simpl.
    + unfold maxInt64. lia.
    + apply Z.ltb_ge in Hlt. assert (t = u) as -> by lia.
      rewrite Z.sub_diag in Hneg. discriminate.
  - apply Z.ltb_ge in Hneg.
    destruct ((0 <? wrap64 (t - u)) && (t <? u)) eqn:Hcase; [|assumption].
    apply andb_true_iff in Hcase as [_ Hlt]. apply Z.ltb_lt in Hlt. lia.
Qed.

Lemma monotonic_readings_ordered (start end_ : time_Time) a b :
  Time_mono start = Some a -> Time_mono end_ = Some b -> a <= b ->
  Time_After start end_ = false
  /\ Time_Before end_ start = false
  /\ 0 <= Time_Sub end_ start.
Proof.
  intros Ha Hb Hle. unfold Time_After, Time_Before, Time_Sub.
  rewrite Ha, Hb. repeat split.
  - apply Z.ltb_ge. assumption.
  - apply Z.ltb_ge. assumption.
  - now apply subMono_nonneg.
Qed.

Lemma Examples_clock_monotonic do :
  clock_monotonic (Examples.env_with do).
Proof.
  intros i j Hij. simpl. unfold Examples.clock. simpl.
  eexists _, _. split; [reflexivity|]. split; [reflexivity|]. lia.
Qed.

(** C9: every result that Check returns has its start not after its end:
    the start is the clock reading taken just before the request is
    executed and the end the reading taken just after it returns, so on a
    monotonic clock the duration [End.Sub(Start)] is never negative. *)
Theorem Check_Start_not_after_End (L : GoLib) (E : Env) (m : Monitor)
    (ctx : Context) (w w' : World) (r : CheckResult) :
  clock_monotonic E ->
  Monitor_Check E m ctx w = (Returned (Some r, None), w') ->
  Time_After (CheckResult_Start r) (CheckResult_End r) = false
  /\ Time_Before (CheckResult_End r) (CheckResult_Start r) = false
  /\ 0 <= Time_Sub (CheckResult_End r) (CheckResult_Start r)
  /\ exists req pre post,
       World_trace w'
       = World_trace w ++ pre
           ++ [EvNow (CheckResult_Start r); EvDo (Monitor_client m) req;
               EvNow (CheckResult_End r)] ++ post.
Proof.
  intros Hclock Hrun.
  destruct (Monitor_Check_success_inv E _ _ _ _ _ Hrun)
    as (req0 & resp & post & _ & _ & _ & _ & _ & Hstart & Hend & _ & Htrace).
  destruct (Hclock (1 + World_ticks w)%nat (2 + World_ticks w)%nat)
    as (a & b & Ha & Hb & Hle); [lia|].
  rewrite <- Hstart in Ha. rewrite <- Hend in Hb.
  destruct (monotonic_readings_ordered _ _ _ _ Ha Hb Hle) as (H1 & H2 & H3).
  repeat (split; [assumption|]).
  eexists _, [_], post. exact Htrace.
Qed.

Lemma Check_Start_not_after_End_witness :
  exists r w',
    @Monitor_Check Ref.lib Examples.env_plain Examples.monitor_defaults
      context_Background World_init = (Returned (Some r, None), w')
    /\ 0 <= Time_Sub (CheckResult_End r) (CheckResult_Start r).
Proof.
  eexists _, _. split; [vm_compute; reflexivity|].
  eapply (Check_Start_not_after_End Ref.lib Examples.env_plain
            Examples.monitor_defaults context_Background World_init).
  - apply Examples_clock_monotonic.
  - vm_compute. reflexivity.
Defined.

(** * The request Check sends *)

(** The three cache-busting headers are set on the request. *)
Lemma sent_request_headers req stamp :
  let h := Request_Header (sent_request req stamp) in
  Header_Get h "Cache-Control" = "no-cache, no-store, must-revalidate"
  /\ Header_Get h "Pragma" = "no-cache"
  /\ Header_Get h "Expires" = "0".
Proof.
  cbv zeta. unfold sent_request, set_nocache_headers, Header_Get, Header_Set.
  cbn [Request_Header Request_set_URL Request_set_Header].
  change (CanonicalMIMEHeaderKey "Cache-Control") with "Cache-Control".
  change (CanonicalMIMEHeaderKey "Pragma") with "Pragma".
  change (CanonicalMIMEHeaderKey "Expires") with "Expires".
  repeat split.
  - rewrite lookup_insert_ne by discriminate.
    rewrite lookup_insert_ne by discriminate.
    now rewrite lookup_insert_eq.
  - rewrite lookup_insert_ne by discriminate.
    now rewrite lookup_insert_eq.
  - now rewrite lookup_insert_eq.
Qed.

(** The query string of the request is the cache-busting parameter alone,
    whatever the query string of the configured URL was. *)
Lemma sent_request_query req stamp :
  URL_RawQuery (Request_URL (sent_request req stamp))
  = "nocache=" +:+ pretty (Time_UnixNano stamp).
Proof. reflexivity. Qed.

(** Once the request is built, Check hands [sent_request] to the client,
    whatever happens afterwards. *)
Lemma Monitor_Check_sends `{GoLib} (E : Env) m ctx w req0 :
  http_NewRequestWithContext ctx (Config_Method (Monitor_config m))
    (Config_URL (Monitor_config m)) = inl req0 ->
  exists out w' pre post,
    Monitor_Check E m ctx w = (out, w')
    /\ World_trace w'
       = World_trace w ++ pre
           ++ [EvDo (Monitor_client m)
                 (sent_request req0 (Env_clock E (World_ticks w)))] ++ post.
Proof.
  intros Hreq. rewrite Monitor_Check_run. cbv zeta. rewrite Hreq.
  destruct (Env_Do E _ _) as [resp|err].
  - destruct (Body_err (Response_Body resp)).
    + eexists _, _, [_; _], _. split; reflexivity.
    + destruct (Response_TLS resp) as [[[|cert rest]]|].
      * eexists _, _, [_; _], _. split; reflexivity.
      * certInfo_step E (certInfo_returns E cert rest).
        eexists _, _, [_; _], _. split; [reflexivity|]. trace_eq.
      * eexists _, _, [_; _], _. split; reflexivity.
  - eexists _, _, [_; _], _. split; reflexivity.
Qed.

(** C1, evaluated on the code: for the configured URL
    https://example.com/health?token=abc, which NewMonitor accepts and stores
    unchanged, the request that Check hands to the client has the three
    cache-busting headers, but its query string is the cache-busting
    parameter alone: the parameter token=abc of the configured URL is not
    sent. *)
Theorem Check_replaces_configured_query (E : Env) (w : World) :
  let stamp := Env_clock E (World_ticks w) in
  @NewMonitor Ref.lib Examples.config_query
  = (Some Examples.monitor_query, None)
  /\ Config_URL (Monitor_config Examples.monitor_query)
     = "https://example.com/health?token=abc"
  /\ exists req0 sent out w' pre post,
       @http_NewRequestWithContext Ref.lib context_Background "GET"
         "https://example.com/health?token=abc" = inl req0
       /\ URL_RawQuery (Request_URL req0) = "token=abc"
       /\ @Monitor_Check Ref.lib E Examples.monitor_query context_Background w
          = (out, w')
       /\ World_trace w'
          = World_trace w ++ pre
              ++ [EvDo (Monitor_client Examples.monitor_query) sent] ++ post
       /\ Header_Get (Request_Header sent) "Cache-Control"
          = "no-cache, no-store, must-revalidate"
       /\ URL_RawQuery (Request_URL sent)
          = "nocache=" +:+ pretty (Time_UnixNano stamp)
       /\ @URL_String Ref.lib (Request_URL sent)
          = "https://example.com/health?nocache="
              +:+ pretty (Time_UnixNano stamp).
Proof.
  intros stamp. split; [vm_compute; reflexivity|]. split; [reflexivity|].
  pose (req0 :=
    {| Request_ctx := context_Background; Request_Method := "GET";
       Request_URL :=
         {| URL_Scheme := "https"; URL_Opaque := ""; URL_User := None;
            URL_Host := "example.com"; URL_Path := "/health";
            URL_RawPath := ""; URL_OmitHost := false;
            URL_ForceQuery := false; URL_RawQuery := "token=abc";
            URL_Fragment := ""; URL_RawFragment := "" |};
       Request_Header := ∅; Request_Host := "example.com" |}).
  assert (Hreq : @http_NewRequestWithContext Ref.lib context_Background "GET"
                   "https://example.com/health?token=abc" = inl req0)
    by (vm_compute; reflexivity).
  destruct (@Monitor_Check_sends Ref.lib E Examples.monitor_query
              context_Background w req0 Hreq)
    as (out & w' & pre & post & Hcheck & Htr).
  exists req0, (sent_request req0 stamp), out, w', pre, post.
  split; [exact Hreq|]. split; [reflexivity|]. split; [exact Hcheck|].
  split; [exact Htr|].
  split; [apply (sent_request_headers req0 stamp)|].
  split; [reflexivity|].
  transitivity ("https://example.com/health?nocache="
                  +:+ (pretty (Time_UnixNano stamp) +:+ ""));
    [reflexivity|].
  now rewrite append_empty_r.
Qed.

(** * Further properties of the monitor factory *)

(** X1: the validation of NewMonitor stops at the first failure, in the
    order method, timeout, URL.  An empty method is reported as "missing
    HTTP method" whatever the other fields are; otherwise a negative timeout
    is reported as "negative timeout" whatever the URL is; otherwise a
    rejected URL is reported by an error that wraps the error of
    sanitizeURL and whose text is "invalid URL: " followed by its text,
    where sanitizeURL hands on a parse error unchanged, reports an empty
    scheme before it looks at the host, and reports an empty host last. *)
Theorem NewMonitor_error_precedence (L : GoLib) (config : Config) :
  (Config_Method config = "" ->
   NewMonitor config = (None, Some (errors_New "missing HTTP method")))
  /\ (Config_Method config <> "" -> Config_RequestTimeout config < 0 ->
      NewMonitor config = (None, Some (errors_New "negative timeout")))
  /\ (Config_Method config <> "" -> 0 <= Config_RequestTimeout config ->
      forall cause,
        (url_Parse (Config_URL config) = inr cause
         \/ (exists u, url_Parse (Config_URL config) = inl u
               /\ URL_Scheme u = ""
               /\ cause = errors_New ("missing scheme "
                                        +:+ strconv_Quote (Config_URL config)))
         \/ (exists u, url_Parse (Config_URL config) = inl u
               /\ URL_Scheme u <> "" /\ URL_Host u = ""
               /\ cause = errors_New ("missing host "
                                        +:+ strconv_Quote (Config_URL config))))
        ->
        sanitizeURL (Config_URL config) = ("", Some cause)
        /\ exists err,
             NewMonitor config = (None, Some err)
             /\ error_Unwrap err = Some cause
             /\ error_Error err = "invalid URL: " +:+ error_Error cause).
Proof.
  split; [|split].
  - intros Hm. unfold NewMonitor.
    destruct (decide (Config_Method config = "")); [reflexivity|contradiction].
  - intros Hm Ht. unfold NewMonitor.
    destruct (decide (Config_Method config = "")); [contradiction|].
    destruct (decide (Config_RequestTimeout config = 0)); [lia|].
    destruct (decide (Config_RequestTimeout config < 0));
      [reflexivity|contradiction].
  - intros Hm Ht cause Hcause.
    assert (Hsan : sanitizeURL (Config_URL config) = ("", Some cause)).
    { unfold sanitizeURL.
      destruct Hcause as [->|[(u & -> & Hs & ->)|(u & -> & Hs & Hh & ->)]].
      - reflexivity.
      - destruct (decide (URL_Scheme u = "")); [reflexivity|contradiction].
      - destruct (decide (URL_Scheme u = "")); [contradiction|].
        destruct (decide (URL_Host u = "")); [reflexivity|contradiction]. }
    split; [exact Hsan|].
    unfold NewMonitor. rewrite Hsan.
    destruct (decide (Config_Method config = "")); [contradiction|].
    destruct (decide (Config_RequestTimeout config = 0)).
    + destruct (decide (10 * time_Second < 0)) as [Hneg|_];
        [unfold time_Second in Hneg; lia|].
      eexists. split; [reflexivity|]. split; reflexivity.
    + destruct (decide (Config_RequestTimeout config < 0)); [lia|].
      eexists. split; [reflexivity|]. split; reflexivity.
Qed.

Lemma NewMonitor_error_precedence_witness :
  @NewMonitor Ref.lib
    {| Config_URL := "example.com"; Config_Method := "";
       Config_RequestTimeout := -1; Config_IgnoreCert := false;
       Config_DontFollowRedirect := false; Config_UpStatusCodes := [];
       Config_Headers := ∅ |}
  = (None, Some (errors_New "missing HTTP method")).
Proof.
  apply (proj1 (NewMonitor_error_precedence Ref.lib _)). reflexivity.
Defined.

(** X2: a monitor that NewMonitor returns is well formed and keeps what the
    caller configured: its method is the configured one and is not empty;
    its timeout is positive, equal to the configured one unless that was
    zero, and is the timeout of its client; its accepted status codes are
    not empty and are the configured ones unless those were empty; the
    flags and the headers are the configured ones. *)
Theorem NewMonitor_well_formed (L : GoLib) (config : Config) (m : Monitor) :
  NewMonitor config = (Some m, None) ->
  let stored := Monitor_config m in
  Config_Method stored = Config_Method config
  /\ Config_Method stored <> ""
  /\ 0 < Config_RequestTimeout stored
  /\ Client_Timeout (Monitor_client m) = Config_RequestTimeout stored
  /\ (Config_RequestTimeout config <> 0 ->
      Config_RequestTimeout stored = Config_RequestTimeout config)
  /\ Config_UpStatusCodes stored <> []
  /\ (Config_UpStatusCodes config <> [] ->
      Config_UpStatusCodes stored = Config_UpStatusCodes config)
  /\ Config_IgnoreCert stored = Config_IgnoreCert config
  /\ Config_DontFollowRedirect stored = Config_DontFollowRedirect config
  /\ Config_Headers stored = Config_Headers config.
Proof.
  intros Hnew. cbv zeta. unfold NewMonitor in Hnew.
  destruct (decide (Config_Method config = "")) as [|Hm]; [discriminate|].
  set (timeout := if decide (Config_RequestTimeout config = 0)
                  then 10 * time_Second else Config_RequestTimeout config)
    in Hnew.
  destruct (decide (timeout < 0)) as [|Ht]; [discriminate|].
  destruct (sanitizeURL (Config_URL config)) as [validURL [err|]];
    [discriminate|].
  injection Hnew as <-. simpl.
  split; [reflexivity|]. split; [assumption|].
  split.
  { unfold timeout in *.
    destruct (decide (Config_RequestTimeout config = 0));
      [unfold time_Second; lia|lia]. }
  split; [reflexivity|].
  split.
  { intros Hnz. unfold timeout.
    destruct (decide (Config_RequestTimeout config = 0));
      [contradiction|reflexivity]. }
  split.
  { destruct (decide (length (Config_UpStatusCodes config) = 0%nat))
      as [|Hlen]; [discriminate|].
    intros Hnil. rewrite Hnil in Hlen. now apply Hlen. }
  split.
  { intros Hne.
    destruct (decide (length (Config_UpStatusCodes config) = 0%nat))
      as [Hlen|]; [|reflexivity].
    destruct (Config_UpStatusCodes config); [contradiction|discriminate]. }
  repeat split.
Qed.

Lemma NewMonitor_well_formed_witness :
  0 < Config_RequestTimeout (Monitor_config Examples.monitor_defaults)
  /\ Config_UpStatusCodes (Monitor_config Examples.monitor_defaults) <> [].
Proof.
  pose proof (NewMonitor_well_formed Ref.lib Examples.config_defaults
                Examples.monitor_defaults) as Hwf.
  cbv zeta in Hwf.
  destruct Hwf as (_ & _ & Ht & _ & _ & Hc & _); [vm_compute; reflexivity|].
  split; assumption.
Defined.

(** X3: the client of a monitor that NewMonitor returns follows the
    configuration: its transport skips the verification of the server
    certificate exactly when IgnoreCert is set; it has a redirect policy of
    its own exactly when DontFollowRedirect is set, and that policy answers
    every redirect with ErrUseLastResponse, so that the client hands back
    the redirect response itself. *)
Theorem NewMonitor_client (L : GoLib) (config : Config) (m : Monitor) :
  NewMonitor config = (Some m, None) ->
  TLSConfig_InsecureSkipVerify
    (Transport_TLSClientConfig (Client_Transport (Monitor_client m)))
  = Config_IgnoreCert config
  /\ (Config_DontFollowRedirect config = false ->
      Client_CheckRedirect (Monitor_client m) = None)
  /\ (Config_DontFollowRedirect config = true ->
      exists policy,
        Client_CheckRedirect (Monitor_client m) = Some policy
        /\ forall req via, policy req via = Some http_ErrUseLastResponse).
Proof.
  intros Hnew. unfold NewMonitor in Hnew.
  destruct (decide (Config_Method config = "")); [discriminate|].
  destruct (decide (_ < 0)); [discriminate|].
  destruct (sanitizeURL (Config_URL config)) as [validURL [err|]];
    [discriminate|].
  injection Hnew as <-. simpl.
  split; [reflexivity|]. split.
  - intros ->. reflexivity.
  - intros ->. exists noRedirect. split; reflexivity.
Qed.

Lemma NewMonitor_client_witness :
  exists m policy,
    @NewMonitor Ref.lib
      {| Config_URL := "http://example.com/old"; Config_Method := "HEAD";
         Config_RequestTimeout := time_Second; Config_IgnoreCert := true;
         Config_DontFollowRedirect := true; Config_UpStatusCodes := [301];
         Config_Headers := ∅ |} = (Some m, None)
    /\ Client_CheckRedirect (Monitor_client m) = Some policy
    /\ forall req via, policy req via = Some http_ErrUseLastResponse.
Proof.
  assert (Hex : exists m, @NewMonitor Ref.lib
      {| Config_URL := "http://example.com/old"; Config_Method := "HEAD";
         Config_RequestTimeout := time_Second; Config_IgnoreCert := true;
         Config_DontFollowRedirect := true; Config_UpStatusCodes := [301];
         Config_Headers := ∅ |} = (Some m, None)).
  { eexists. vm_compute. reflexivity. }
  destruct Hex as (m & Hnew). exists m.
  destruct (NewMonitor_client Ref.lib _ _ Hnew) as (_ & _ & Hpolicy).
  destruct (Hpolicy eq_refl) as (policy & Hset & Hall).
  exists policy. split; [exact Hnew|]. split; assumption.
Defined.

(** X4: isSuccessStatus is membership in the stored list: with a stored list
    that is not empty a status code is up exactly when it occurs in it, so
    neither the order of the list nor repetitions in it matter; for a
    monitor that NewMonitor returns, a status code is up exactly when it
    occurs in the configured list or, when that list is empty, when it is
    200 or 201. *)
Theorem isSuccessStatus_membership (L : GoLib) :
  (forall (m : Monitor) (code : Z),
      Monitor_isSuccessStatus m code = true
      <-> (Config_UpStatusCodes (Monitor_config m) = []
           /\ 200 <= code < 300)
          \/ In code (Config_UpStatusCodes (Monitor_config m)))
  /\ (forall (m1 m2 : Monitor) (code : Z),
         Config_UpStatusCodes (Monitor_config m1) <> [] ->
         (forall c, In c (Config_UpStatusCodes (Monitor_config m1))
                    <-> In c (Config_UpStatusCodes (Monitor_config m2))) ->
         Monitor_isSuccessStatus m1 code = Monitor_isSuccessStatus m2 code)
  /\ (forall (config : Config) (m : Monitor) (code : Z),
         NewMonitor config = (Some m, None) ->
         (Monitor_isSuccessStatus m code = true
          <-> In code (Config_UpStatusCodes config)
              \/ (Config_UpStatusCodes config = []
                  /\ (code = 200 \/ code = 201)))).
Proof.
  assert (Hmem : forall (m : Monitor) (code : Z),
      Monitor_isSuccessStatus m code = true
      <-> (Config_UpStatusCodes (Monitor_config m) = []
           /\ 200 <= code < 300)
          \/ In code (Config_UpStatusCodes (Monitor_config m))).
  { intros m code.
    destruct (Config_UpStatusCodes (Monitor_config m)) as [|c l] eqn:Hcodes.
    - rewrite (isSuccessStatus_empty _ _ Hcodes). simpl. tauto.
    - rewrite isSuccessStatus_nonempty by (rewrite Hcodes; discriminate).
      rewrite Hcodes. split; [tauto|]. intros [[Hnil _]|Hin]; [discriminate|].
      exact Hin. }
  split; [exact Hmem|]. split.
  - intros m1 m2 code Hne Hsame.
    assert (Hne2 : Config_UpStatusCodes (Monitor_config m2) <> []).
    { destruct (Config_UpStatusCodes (Monitor_config m1)) as [|c l];
        [contradiction|].
      intros Hnil. rewrite Hnil in Hsame.
      destruct (proj1 (Hsame c)). now left. }
    apply eq_true_iff_eq.
    rewrite (isSuccessStatus_nonempty _ _ Hne).
    rewrite (isSuccessStatus_nonempty _ _ Hne2). apply Hsame.
  - intros config m code Hnew.
    rewrite isSuccessStatus_nonempty
      by exact (NewMonitor_codes_nonempty _ _ Hnew).
    rewrite (NewMonitor_codes _ _ Hnew). unfold effective_codes.
    destruct (Config_UpStatusCodes config) as [|c l]; simpl.
    + intuition congruence.
    + split; [tauto|]. intros [Hin|[Hnil _]]; [exact Hin|discriminate].
Qed.

Lemma isSuccessStatus_membership_witness :
  Monitor_isSuccessStatus Examples.monitor_defaults 201 = true
  <-> In 201 (Config_UpStatusCodes Examples.config_defaults)
      \/ (Config_UpStatusCodes Examples.config_defaults = []
          /\ (201 = 200 \/ 201 = 201)).
Proof.
  apply (proj2 (proj2 (isSuccessStatus_membership Ref.lib))).
  vm_compute. reflexivity.
Defined.

(** * The events of a check *)

Section CertInfoEvents.
Context `{GoLib} (E : Env).

(** What certInfo leaves behind on a chain with a leaf: events of its own
    kind only; a verification, if any, of the leaf against the options
    built from the host, the trust store and the rest of the chain; and a
    message exactly when the result is invalid. *)
Lemma certInfo_events cert rest host w :
  exists ci evs,
    certInfo E (Some {| ConnectionState_PeerCertificates := cert :: rest |})
      host w = (Returned (Some ci), advance w 1 evs)
    /\ forallb is_cert_event evs = true
    /\ (forall c opts, In (EvVerify c opts) evs ->
          c = cert
          /\ exists roots, Env_SystemCertPool E = inl roots
               /\ opts = certInfo_opts host roots rest)
    /\ (CertInfo_IsValid ci = false <-> CertInfo_ErrorMsg ci <> "").
Proof.
  rewrite certInfo_run. cbv zeta.
  destruct (Time_Before _ _).
  { eexists _, _. split; [reflexivity|]. split; [reflexivity|]. split.
    - intros c opts [Hin|[]]. discriminate.
    - simpl. split; [|reflexivity].
      intros _. now apply invalid_message_nonempty. }
  destruct (Time_After _ _).
  { eexists _, _. split; [reflexivity|]. split; [reflexivity|]. split.
    - intros c opts [Hin|[]]. discriminate.
    - simpl. split; [|reflexivity].
      intros _. now apply invalid_message_nonempty. }
  destruct (Env_SystemCertPool E) as [roots|err].
  - destruct (Env_Verify E cert _);
      eexists _, _; (split; [reflexivity|]); (split; [reflexivity|]); split.
    + intros c opts [Hin|[Hin|[Hin|[]]]]; try discriminate.
      injection Hin as <- <-. eauto.
    + simpl. split; [intros _; now apply invalid_message_nonempty|reflexivity].
    + intros c opts [Hin|[Hin|[Hin|[]]]]; try discriminate.
      injection Hin as <- <-. eauto.
    + simpl. split; [discriminate|]. intros Hne. now destruct Hne.
  - eexists _, _. split; [reflexivity|]. split; [reflexivity|]. split.
    + intros c opts [Hin|[Hin|[]]]; discriminate.
    + simpl. split; [intros _; now apply invalid_message_nonempty|reflexivity].
Qed.
End CertInfoEvents.

Lemma count_events_app p evs1 evs2 :
  count_events p (evs1 ++ evs2)
  = (count_events p evs1 + count_events p evs2)%nat.
Proof. unfold count_events. now rewrite List.filter_app, length_app. Qed.

(** The events of certInfo are no round trips and touch no body. *)
Lemma cert_events_count (p : Event -> bool) evs :
  (forall ev, is_cert_event ev = true -> p ev = false) ->
  forallb is_cert_event evs = true -> count_events p evs = 0%nat.
Proof.
  intros Hp. unfold count_events.
  induction evs as [|ev evs IH]; [reflexivity|]. simpl.
  intros Hall. apply andb_true_iff in Hall as [Hev Hall].
  rewrite (Hp _ Hev). now apply IH.
Qed.

Lemma cert_event_not_Do ev : is_cert_event ev = true -> is_Do ev = false.
Proof. now destruct ev. Qed.
Lemma cert_event_not_Copy ev : is_cert_event ev = true -> is_Copy ev = false.
Proof. now destruct ev. Qed.
Lemma cert_event_not_Close ev : is_cert_event ev = true -> is_Close ev = false.
Proof. now destruct ev. Qed.

Section CheckEvents.
Context `{GoLib} (E : Env).

(** The events of a check, case by case. *)
Lemma Monitor_Check_events m ctx w :
  let stamp := Env_clock E (World_ticks w) in
  let start := Env_clock E (1 + World_ticks w) in
  let end_ := Env_clock E (2 + World_ticks w) in
  exists out w' evs,
    Monitor_Check E m ctx w = (Returned out, w')
    /\ World_trace w' = World_trace w ++ evs
    /\ match http_NewRequestWithContext ctx
               (Config_Method (Monitor_config m))
               (Config_URL (Monitor_config m)) with
       | inr _ => evs = []
       | inl req0 =>
           let sent := sent_request req0 stamp in
           let head :=
             [EvNow stamp; EvNow start; EvDo (Monitor_client m) sent;
              EvNow end_] in
           match Env_Do E (Monitor_client m) sent with
           | inr _ => evs = head
           | inl resp =>
               exists certevs,
                 evs = head ++ EvCopy (Response_Body resp)
                         :: certevs ++ [EvClose (Response_Body resp)]
                 /\ forallb is_cert_event certevs = true
                 /\ (forall c opts, In (EvVerify c opts) certevs ->
                       Body_err (Response_Body resp) = None
                       /\ exists rest roots,
                            Response_TLS resp
                            = Some {| ConnectionState_PeerCertificates :=
                                        c :: rest |}
                            /\ Env_SystemCertPool E = inl roots
                            /\ opts
                               = certInfo_opts
                                   (URL_Hostname
                                      (Request_URL (Response_Request resp)))
                                   roots rest)
           end
       end.
Proof.
  cbv zeta. rewrite Monitor_Check_run. cbv zeta.
  destruct (http_NewRequestWithContext _ _ _) as [req0|err].
  2: { eexists _, _, []. split; [reflexivity|].
       split; [now rewrite app_nil_r|reflexivity]. }
  destruct (Env_Do E _ _) as [resp|err].
  2: { eexists _, _, _. split; [reflexivity|]. split; reflexivity. }
  destruct (Body_err (Response_Body resp)) eqn:Hbody.
  { eexists _, _, _. split; [reflexivity|]. split; [reflexivity|].
    exists []. split; [reflexivity|]. split; [reflexivity|].
    intros c opts []. }
  destruct (Response_TLS resp) as [[[|cert rest]]|] eqn:Htls.
  - eexists _, _, _. split; [reflexivity|]. split; [reflexivity|].
    exists []. split; [reflexivity|]. split; [reflexivity|].
    intros c opts [].
  - match goal with
    | |- context [certInfo E _ ?host ?w1] =>
        destruct (certInfo_events E cert rest host w1)
          as (ci & evs & -> & Hall & Hverify & _)
    end.
    eexists _, _, _. split; [reflexivity|]. split; [trace_eq|].
    exists evs. split; [reflexivity|]. split; [exact Hall|].
    intros c opts Hin. split; [reflexivity|].
    destruct (Hverify _ _ Hin) as (-> & roots & Hpool & ->).
    exists rest, roots. auto.
  - eexists _, _, _. split; [reflexivity|]. split; [reflexivity|].
    exists []. split; [reflexivity|]. split; [reflexivity|].
    intros c opts [].
Qed.
End CheckEvents.

(** X5: Check performs at most one round trip and never retries: the events
    of an invocation contain exactly one call of the client when the request
    could be built, whatever the outcome of that call, and none otherwise. *)
Theorem Monitor_Check_one_round_trip (L : GoLib) (E : Env) (m : Monitor)
    (ctx : Context) (w : World) :
  exists out w' evs,
    Monitor_Check E m ctx w = (Returned out, w')
    /\ World_trace w' = World_trace w ++ evs
    /\ count_events is_Do evs
       = match http_NewRequestWithContext ctx
                 (Config_Method (Monitor_config m))
                 (Config_URL (Monitor_config m)) with
         | inl _ => 1%nat
         | inr _ => 0%nat
         end.
Proof.
  destruct (Monitor_Check_events E m ctx w)
    as (out & w' & evs & Hrun & Htrace & Hevs).
  exists out, w', evs. split; [exact Hrun|]. split; [exact Htrace|].
  destruct (http_NewRequestWithContext _ _ _) as [req0|err];
    [|now subst evs].
  cbv zeta in Hevs. destruct (Env_Do E _ _) as [resp|err];
    [|now subst evs].
  destruct Hevs as (certevs & -> & Hall & _).
  rewrite count_events_app.
  change (EvCopy (Response_Body resp) :: certevs
            ++ [EvClose (Response_Body resp)])
    with ([EvCopy (Response_Body resp)]
            ++ certevs ++ [EvClose (Response_Body resp)]).
  rewrite !count_events_app.
  rewrite (cert_events_count is_Do certevs cert_event_not_Do Hall).
  reflexivity.
Qed.

(** X6: Check releases the response body.  When the client returned a
    response, the body is drained once and closed once, the close is the
    last event of the invocation, and this holds also when reading the body
    failed; when the client returned an error, or the request could not be
    built, no body is touched. *)
Theorem Monitor_Check_closes_body (L : GoLib) (E : Env) (m : Monitor)
    (ctx : Context) (w : World) :
  exists out w' evs,
    Monitor_Check E m ctx w = (Returned out, w')
    /\ World_trace w' = World_trace w ++ evs
    /\ match http_NewRequestWithContext ctx
               (Config_Method (Monitor_config m))
               (Config_URL (Monitor_config m)) with
       | inr _ =>
           count_events is_Copy evs = 0%nat
           /\ count_events is_Close evs = 0%nat
       | inl req0 =>
           match Env_Do E (Monitor_client m)
                   (sent_request req0 (Env_clock E (World_ticks w))) with
           | inr _ =>
               count_events is_Copy evs = 0%nat
               /\ count_events is_Close evs = 0%nat
           | inl resp =>
               count_events is_Copy evs = 1%nat
               /\ count_events is_Close evs = 1%nat
               /\ exists before between,
                    evs = before ++ EvCopy (Response_Body resp)
                            :: between ++ [EvClose (Response_Body resp)]
           end
       end.
Proof.
  destruct (Monitor_Check_events E m ctx w)
    as (out & w' & evs & Hrun & Htrace & Hevs).
  exists out, w', evs. split; [exact Hrun|]. split; [exact Htrace|].
  destruct (http_NewRequestWithContext _ _ _) as [req0|err];
    [|now subst evs].
  cbv zeta in Hevs. destruct (Env_Do E _ _) as [resp|err];
    [|now subst evs].
  destruct Hevs as (certevs & -> & Hall & _).
  change (EvCopy (Response_Body resp) :: certevs
            ++ [EvClose (Response_Body resp)])
    with ([EvCopy (Response_Body resp)]
            ++ certevs ++ [EvClose (Response_Body resp)]).
  rewrite !count_events_app.
  rewrite (cert_events_count is_Copy certevs cert_event_not_Copy Hall).
  rewrite (cert_events_count is_Close certevs cert_event_not_Close Hall).
  split; [reflexivity|]. split; [reflexivity|].
  eexists _, certevs. reflexivity.
Qed.

(** X7: when a check verifies a certificate chain, it verifies the leaf of
    the response, with the rest of the peer chain as intermediates, the
    system trust store as roots, and as expected name the host of the
    request that the response answers (the last request after redirects),
    not the host of the configured URL. *)
Theorem Monitor_Check_verification_target (L : GoLib) (E : Env)
    (m : Monitor) (ctx : Context) (w w' : World)
    (out : option CheckResult * option error)
    (pre post : list Event) (c : x509_Certificate)
    (opts : x509_VerifyOptions) :
  Monitor_Check E m ctx w = (Returned out, w') ->
  World_trace w' = World_trace w ++ pre ++ EvVerify c opts :: post ->
  exists req0 resp rest roots,
    http_NewRequestWithContext ctx (Config_Method (Monitor_config m))
      (Config_URL (Monitor_config m)) = inl req0
    /\ Env_Do E (Monitor_client m)
         (sent_request req0 (Env_clock E (World_ticks w))) = inl resp
    /\ Response_TLS resp
       = Some {| ConnectionState_PeerCertificates := c :: rest |}
    /\ Env_SystemCertPool E = inl roots
    /\ VerifyOptions_DNSName opts
       = URL_Hostname (Request_URL (Response_Request resp))
    /\ VerifyOptions_Intermediates opts = rest
    /\ VerifyOptions_Roots opts = roots.
Proof.
  intros Hrun Htrace.
  destruct (Monitor_Check_events E m ctx w)
    as (out' & w'' & evs & Hrun' & Htrace' & Hevs).
  rewrite Hrun in Hrun'. injection Hrun' as <- <-.
  rewrite Htrace in Htrace'. apply app_inv_head in Htrace'. subst evs.
  destruct (http_NewRequestWithContext _ _ _) as [req0|err].
  2: { now destruct pre. }
  cbv zeta in Hevs. destruct (Env_Do E _ _) as [resp|err] eqn:Hdo.
  2: { assert (Hin : In (EvVerify c opts)
                       (pre ++ EvVerify c opts :: post))
         by (apply in_or_app; right; now left).
       rewrite Hevs in Hin. simpl in Hin.
       destruct Hin as [|[|[|[|[]]]]]; discriminate. }
  destruct Hevs as (certevs & Hevs & _ & Hverify).
  assert (Hin : In (EvVerify c opts) certevs).
  { assert (Hin : In (EvVerify c opts) (pre ++ EvVerify c opts :: post))
      by (apply in_or_app; right; now left).
    rewrite Hevs in Hin. simpl in Hin.
    destruct Hin as [|[|[|[|[|Hin]]]]]; try discriminate.
    apply in_app_or in Hin as [Hin|[|[]]]; [exact Hin|discriminate]. }
  destruct (Hverify _ _ Hin) as (_ & rest & roots & Htls & Hpool & ->).
  exists req0, resp, rest, roots. repeat split; assumption.
Qed.

Lemma Monitor_Check_verification_target_witness :
  exists c opts req0 resp rest roots,
    @http_NewRequestWithContext Ref.lib context_Background "GET"
      "https://example.com" = inl req0
    /\ Env_Do (Examples.env_tls [Examples.leaf; Examples.intermediate])
         (Monitor_client Examples.monitor_defaults)
         (sent_request req0 (Examples.clock 0)) = inl resp
    /\ Response_TLS resp
       = Some {| ConnectionState_PeerCertificates := c :: rest |}
    /\ Env_SystemCertPool
         (Examples.env_tls [Examples.leaf; Examples.intermediate])
       = inl roots
    /\ VerifyOptions_DNSName opts
       = @URL_Hostname Ref.lib (Request_URL (Response_Request resp))
    /\ VerifyOptions_Intermediates opts = rest
    /\ VerifyOptions_Roots opts = roots.
Proof.
  destruct (@Monitor_Check Ref.lib
              (Examples.env_tls [Examples.leaf; Examples.intermediate])
              Examples.monitor_defaults context_Background World_init)
    as [o w'] eqn:Hrun.
  assert (Hshape : exists out pre c opts post,
             o = Returned out
             /\ World_trace w'
                = World_trace World_init ++ pre ++ EvVerify c opts :: post).
  { pose proof Hrun as Hval. vm_compute in Hval. injection Hval as <- <-.
    eexists _, [_; _; _; _; _; _; _], _, _, _. split; reflexivity. }
  destruct Hshape as (out & pre & c & opts & post & -> & Htrace).
  exists c, opts.
  exact (Monitor_Check_verification_target Ref.lib _ _ _ _ _ _ _ _ _ _
           Hrun Htrace).
Defined.

(** X8: Check returns a result exactly when the request can be built, the
    client returns a response and the body is read to its end.  Neither the
    status code of the response nor the validity of the certificate makes a
    check fail: the result then carries the configured URL and the status
    code of the response, whatever it is. *)
Theorem Monitor_Check_success_iff (L : GoLib) (E : Env) (m : Monitor)
    (ctx : Context) (w : World) :
  ((exists r w', Monitor_Check E m ctx w = (Returned (Some r, None), w'))
   <-> exists req0 resp,
         http_NewRequestWithContext ctx (Config_Method (Monitor_config m))
           (Config_URL (Monitor_config m)) = inl req0
         /\ Env_Do E (Monitor_client m)
              (sent_request req0 (Env_clock E (World_ticks w))) = inl resp
         /\ Body_err (Response_Body resp) = None)
  /\ (forall req0 resp,
         http_NewRequestWithContext ctx (Config_Method (Monitor_config m))
           (Config_URL (Monitor_config m)) = inl req0 ->
         Env_Do E (Monitor_client m)
           (sent_request req0 (Env_clock E (World_ticks w))) = inl resp ->
         Body_err (Response_Body resp) = None ->
         exists r w',
           Monitor_Check E m ctx w = (Returned (Some r, None), w')
           /\ CheckResult_URL r = Config_URL (Monitor_config m)
           /\ CheckResult_StatusCode r = Response_StatusCode resp).
Proof.
  assert (Hok : forall req0 resp,
         http_NewRequestWithContext ctx (Config_Method (Monitor_config m))
           (Config_URL (Monitor_config m)) = inl req0 ->
         Env_Do E (Monitor_client m)
           (sent_request req0 (Env_clock E (World_ticks w))) = inl resp ->
         Body_err (Response_Body resp) = None ->
         exists r w',
           Monitor_Check E m ctx w = (Returned (Some r, None), w')
           /\ CheckResult_URL r = Config_URL (Monitor_config m)
           /\ CheckResult_StatusCode r = Response_StatusCode resp).
  { intros req0 resp Hreq Hdo Hbody.
    rewrite Monitor_Check_run. cbv zeta. rewrite Hreq, Hdo, Hbody.
    destruct (Response_TLS resp) as [[[|cert rest]]|].
    - eexists _, _. split; [reflexivity|]. split; reflexivity.
    - certInfo_step E (certInfo_returns E cert rest).
      eexists _, _. split; [reflexivity|]. split; reflexivity.
    - eexists _, _. split; [reflexivity|]. split; reflexivity. }
  split; [|exact Hok]. split.
  - intros (r & w' & Hrun).
    destruct (Monitor_Check_success_inv E _ _ _ _ _ Hrun)
      as (req0 & resp & post & Hreq & Hdo & Hbody & _).
    eauto.
  - intros (req0 & resp & Hreq & Hdo & Hbody).
    destruct (Hok _ _ Hreq Hdo Hbody) as (r & w' & Hrun & _). eauto.
Qed.

Lemma Monitor_Check_success_iff_witness :
  exists r w',
    @Monitor_Check Ref.lib
      (Examples.env_with
         (fun c req =>
            inl {| Response_StatusCode := 503;
                   Response_Body := Examples.body_ok;
                   Response_TLS := None; Response_Request := req |}))
      Examples.monitor_defaults context_Background World_init
    = (Returned (Some r, None), w')
    /\ CheckResult_URL r = "https://example.com"
    /\ CheckResult_StatusCode r = 503.
Proof.
  destruct (@http_NewRequestWithContext Ref.lib context_Background "GET"
              "https://example.com") as [req0|err] eqn:Hreq;
    [|vm_compute in Hreq; discriminate].
  destruct (proj2 (Monitor_Check_success_iff Ref.lib
                     (Examples.env_with
                        (fun c req =>
                           inl {| Response_StatusCode := 503;
                                  Response_Body := Examples.body_ok;
                                  Response_TLS := None;
                                  Response_Request := req |}))
                     Examples.monitor_defaults context_Background
                     World_init)
              req0 _ Hreq eq_refl eq_refl)
    as (r & w' & Hrun & Hurl & Hcode).
  exists r, w'. split; [exact Hrun|]. split; assumption.
Defined.

(** X9: Check reads only the client, the URL and the method of a monitor.
    Two monitors that agree on these behave alike, whatever their accepted
    status codes, their timeouts in the configuration, their flags and
    their headers are: the configured headers are not put on the request,
    and the accepted status codes play no part in a check. *)
Theorem Monitor_Check_reads_client_URL_method (L : GoLib) (E : Env)
    (m1 m2 : Monitor) (ctx : Context) (w : World) :
  Monitor_client m1 = Monitor_client m2 ->
  Config_URL (Monitor_config m1) = Config_URL (Monitor_config m2) ->
  Config_Method (Monitor_config m1) = Config_Method (Monitor_config m2) ->
  Monitor_Check E m1 ctx w = Monitor_Check E m2 ctx w.
Proof.
  intros Hc Hu Hm. rewrite !Monitor_Check_run. cbv zeta.
  rewrite Hc, Hu, Hm. reflexivity.
Qed.

Lemma Monitor_Check_reads_client_URL_method_witness :
  @Monitor_Check Ref.lib Examples.env_plain Examples.monitor_defaults
    context_Background World_init
  = @Monitor_Check Ref.lib Examples.env_plain
      {| Monitor_client := Monitor_client Examples.monitor_defaults;
         Monitor_config :=
           {| Config_URL := "https://example.com"; Config_Method := "GET";
              Config_RequestTimeout := 1; Config_IgnoreCert := true;
              Config_DontFollowRedirect := true;
              Config_UpStatusCodes := [404];
              Config_Headers := {["X-Probe" := ["1"]]} |} |}
      context_Background World_init.
Proof.
  apply (Monitor_Check_reads_client_URL_method Ref.lib); reflexivity.
Defined.

(** * The request of a check, in detail *)

Lemma canonical_nocache_keys :
  CanonicalMIMEHeaderKey "Cache-Control" = "Cache-Control"
  /\ CanonicalMIMEHeaderKey "Pragma" = "Pragma"
  /\ CanonicalMIMEHeaderKey "Expires" = "Expires".
Proof. repeat split. Qed.

(** X10: what Check changes on the request it was given.  Under each of the
    keys Cache-Control, Pragma and Expires, however the key is spelled in
    upper and lower case, the request carries exactly the one fixed value,
    in place of any values the request had there; every other header is as
    it was; the method, the host, the context and every part of the URL
    but the query string are as they were. *)
Theorem sent_request_frame (req : http_Request) (stamp : time_Time) :
  let sent := sent_request req stamp in
  (forall key,
      (CanonicalMIMEHeaderKey key = "Cache-Control" ->
       Request_Header sent !! CanonicalMIMEHeaderKey key
       = Some ["no-cache, no-store, must-revalidate"])
      /\ (CanonicalMIMEHeaderKey key = "Pragma" ->
          Request_Header sent !! CanonicalMIMEHeaderKey key
          = Some ["no-cache"])
      /\ (CanonicalMIMEHeaderKey key = "Expires" ->
          Request_Header sent !! CanonicalMIMEHeaderKey key = Some ["0"])
      /\ (CanonicalMIMEHeaderKey key <> "Cache-Control" ->
          CanonicalMIMEHeaderKey key <> "Pragma" ->
          CanonicalMIMEHeaderKey key <> "Expires" ->
          Request_Header sent !! CanonicalMIMEHeaderKey key
          = Request_Header req !! CanonicalMIMEHeaderKey key))
  /\ Header_Get (Request_Header sent) "cache-control"
     = "no-cache, no-store, must-revalidate"
  /\ Request_Method sent = Request_Method req
  /\ Request_Host sent = Request_Host req
  /\ Request_ctx sent = Request_ctx req
  /\ URL_set_RawQuery (Request_URL sent) (URL_RawQuery (Request_URL req))
     = Request_URL req.
Proof.
  cbv zeta. unfold sent_request, set_nocache_headers, Header_Get, Header_Set.
  cbn [Request_Header Request_set_URL Request_set_Header Request_Method
       Request_Host Request_ctx Request_URL].
  destruct canonical_nocache_keys as (-> & -> & ->).
  split; [|split; [|repeat split]].
  - intros key. repeat split.
    + intros ->. rewrite lookup_insert_ne by discriminate.
      rewrite lookup_insert_ne by discriminate.
      now rewrite lookup_insert_eq.
    + intros ->. rewrite lookup_insert_ne by discriminate.
      now rewrite lookup_insert_eq.
    + intros ->. now rewrite lookup_insert_eq.
    + intros H1 H2 H3. now rewrite !lookup_insert_ne by congruence.
  - change (CanonicalMIMEHeaderKey "cache-control") with "Cache-Control".
    rewrite lookup_insert_ne by discriminate.
    rewrite lookup_insert_ne by discriminate.
    now rewrite lookup_insert_eq.
  - now destruct (Request_URL req).
Qed.

Lemma sent_request_frame_witness :
  Request_Header
    (sent_request
       {| Request_ctx := context_Background; Request_Method := "GET";
          Request_URL := Ref.empty_URL;
          Request_Header := {["Pragma" := ["public"; "x"]]};
          Request_Host := "" |} (Examples.clock 0))
    !! CanonicalMIMEHeaderKey "PRAGMA"
  = Some ["no-cache"].
Proof.
  apply (proj1 (sent_request_frame _ _) "PRAGMA"). reflexivity.
Defined.

(** X11: the query string that Check assigns separates two checks exactly
    when their clock readings differ in [UnixNano]: equal readings give the
    same query string and different readings different ones. *)
Theorem sent_request_query_distinct (req1 req2 : http_Request)
    (stamp1 stamp2 : time_Time) :
  URL_RawQuery (Request_URL (sent_request req1 stamp1))
  = URL_RawQuery (Request_URL (sent_request req2 stamp2))
  <-> Time_UnixNano stamp1 = Time_UnixNano stamp2.
Proof.
  unfold sent_request. cbn [Request_URL Request_set_URL URL_RawQuery
                             URL_set_RawQuery].
  split.
  - intros Heq. apply (inj (String.app "nocache=")) in Heq.
    now apply (inj pretty) in Heq.
  - intros ->. reflexivity.
Qed.

(** * The factory and the executor together *)

(** X12: a check by a monitor that NewMonitor returned names the sanitized
    URL, not the configured text: the URL of a result is the
    re-serialization of the parsed configured URL, and the error of a failed
    check wraps its cause and quotes that same URL. *)
Theorem NewMonitor_Check_names_sanitized_URL (L : GoLib) (E : Env)
    (config : Config) (m : Monitor) (ctx : Context) (w : World) :
  NewMonitor config = (Some m, None) ->
  exists u out w',
    url_Parse (Config_URL config) = inl u
    /\ Monitor_Check E m ctx w = (Returned out, w')
    /\ (forall r, fst out = Some r -> CheckResult_URL r = URL_String u)
    /\ (forall err, snd out = Some err ->
          fst out = None
          /\ exists cause,
               error_Unwrap err = Some cause
               /\ str_contains (error_Error err)
                    (strconv_Quote (URL_String u))).
Proof.
  intros Hnew.
  pose proof (NewMonitor_success_inv _ _ Hnew) as Hok.
  destruct (NewMonitor_accepts _ Hok) as (u & m' & Hp & Hnew' & Hurl & _).
  rewrite Hnew in Hnew'. injection Hnew' as <-.
  exists u. rewrite Monitor_Check_run. cbv zeta. rewrite Hurl.
  destruct (http_NewRequestWithContext _ _ _) as [req0|err0].
  2: { eexists _, _. split; [exact Hp|]. split; [reflexivity|]. simpl.
       split; [discriminate|]. intros err [= <-]. split; [reflexivity|].
       exists err0. split; [reflexivity|].
       apply (fmt_Errorf_w_reports "failed to create request for "). }
  destruct (Env_Do E _ _) as [resp|err1].
  2: { eexists _, _. split; [exact Hp|]. split; [reflexivity|]. simpl.
       split; [discriminate|]. intros err [= <-]. split; [reflexivity|].
       exists err1. split; [reflexivity|].
       apply (fmt_Errorf_w_reports "failed to send request for "). }
  destruct (Body_err (Response_Body resp)) as [err2|].
  { eexists _, _. split; [exact Hp|]. split; [reflexivity|]. simpl.
    split; [discriminate|]. intros err [= <-]. split; [reflexivity|].
    exists err2. split; [reflexivity|].
    apply (fmt_Errorf_w_reports "failed to read response body for "). }
  destruct (Response_TLS resp) as [[[|cert rest]]|].
  - eexists _, _. split; [exact Hp|]. split; [reflexivity|]. simpl.
    split; [now intros r [= <-]|discriminate].
  - certInfo_step E (certInfo_returns E cert rest).
    eexists _, _. split; [exact Hp|]. split; [reflexivity|]. simpl.
    split; [now intros r [= <-]|discriminate].
  - eexists _, _. split; [exact Hp|]. split; [reflexivity|]. simpl.
    split; [now intros r [= <-]|discriminate].
Qed.

Lemma NewMonitor_Check_names_sanitized_URL_witness :
  exists u out w',
    @url_Parse Ref.lib "https://example.com" = inl u
    /\ @Monitor_Check Ref.lib Examples.env_plain Examples.monitor_defaults
         context_Background World_init = (Returned out, w')
    /\ (forall r, fst out = Some r
                  -> CheckResult_URL r = @URL_String Ref.lib u).
Proof.
  destruct (NewMonitor_Check_names_sanitized_URL Ref.lib Examples.env_plain
              Examples.config_defaults Examples.monitor_defaults
              context_Background World_init NewMonitor_config_defaults)
    as (u & out & w' & Hp & Hrun & Hres & _).
  exists u, out, w'. split; [exact Hp|]. split; [exact Hrun|exact Hres].
Defined.

(** * Further properties of the certificate inspection *)

(** X13: inside the validity window the verdict of certInfo is the verdict
    of the chain verification.  When the trust store cannot be loaded the
    result is invalid with the message "error loading system root
    certificates: " and the text of the error, and no verification is
    attempted; when the verification fails the result is invalid with the
    message "hostname verification failed: " and the text of the error,
    whatever the reason of the failure; otherwise the result is valid with
    an empty message. *)
Theorem certInfo_chain_verdict (L : GoLib) (E : Env)
    (cert : x509_Certificate) (rest : list x509_Certificate)
    (host : string) (w : World) :
  let now := Env_clock E (World_ticks w) in
  Time_Before now (Certificate_NotBefore cert) = false ->
  Time_After now (Certificate_NotAfter cert) = false ->
  exists ci evs,
    certInfo E (Some {| ConnectionState_PeerCertificates := cert :: rest |})
      host w = (Returned (Some ci), advance w 1 evs)
    /\ match Env_SystemCertPool E with
       | inr err =>
           CertInfo_IsValid ci = false
           /\ CertInfo_ErrorMsg ci
              = "error loading system root certificates: "
                  +:+ error_Error err
           /\ count_events is_Verify evs = 0%nat
       | inl roots =>
           match Env_Verify E cert (certInfo_opts host roots rest) with
           | Some err =>
               CertInfo_IsValid ci = false
               /\ CertInfo_ErrorMsg ci
                  = "hostname verification failed: " +:+ error_Error err
           | None =>
               CertInfo_IsValid ci = true /\ CertInfo_ErrorMsg ci = ""
           end
       end.
Proof.
  intros now Hb Ha. rewrite certInfo_run. cbv zeta. fold now.
  rewrite Hb, Ha.
  destruct (Env_SystemCertPool E) as [roots|err].
  - destruct (Env_Verify E cert _);
      eexists _, _; (split; [reflexivity|]); split; reflexivity.
  - eexists _, _. split; [reflexivity|]. repeat split.
Qed.

Lemma certInfo_chain_verdict_witness :
  exists ci evs,
    @certInfo Ref.lib (Examples.env_tls [])
      (Some {| ConnectionState_PeerCertificates := [Examples.leaf] |})
      "wrong.example.org" World_init
    = (Returned (Some ci), advance World_init 1 evs)
    /\ CertInfo_IsValid ci = false
    /\ CertInfo_ErrorMsg ci
       = "hostname verification failed: "
           +:+ "x509: certificate is not valid for wrong.example.org".
Proof.
  destruct (certInfo_chain_verdict Ref.lib (Examples.env_tls [])
              Examples.leaf [] "wrong.example.org" World_init
              eq_refl eq_refl)
    as (ci & evs & Hrun & Hverdict).
  exists ci, evs. split; [exact Hrun|]. exact Hverdict.
Defined.

(** X14: the validity window of certInfo includes its two ends.  For a
    certificate whose times carry no monotonic reading, as parsed
    certificates do, the leaf is reported as not yet valid exactly when the
    wall clock is before not-before, as expired exactly when it is not and
    the wall clock is after not-after, and the trust store is consulted
    exactly when not-before <= now <= not-after; at the very instants
    not-before and not-after the date rules pass. *)
Theorem certInfo_window_inclusive (L : GoLib) (E : Env)
    (cert : x509_Certificate) (rest : list x509_Certificate)
    (host : string) (w : World) :
  let now := Env_clock E (World_ticks w) in
  Time_mono (Certificate_NotBefore cert) = None ->
  Time_mono (Certificate_NotAfter cert) = None ->
  exists ci evs,
    certInfo E (Some {| ConnectionState_PeerCertificates := cert :: rest |})
      host w = (Returned (Some ci), advance w 1 evs)
    /\ (Time_wall now < Time_wall (Certificate_NotBefore cert)
        <-> CertInfo_ErrorMsg ci
            = "certificate not yet valid: "
                +:+ Time_String (Certificate_NotBefore cert))
    /\ (Time_wall (Certificate_NotBefore cert) <= Time_wall now
        /\ Time_wall (Certificate_NotAfter cert) < Time_wall now
        <-> CertInfo_ErrorMsg ci
            = "certificate has expired: "
                +:+ Time_String (Certificate_NotAfter cert))
    /\ (Time_wall (Certificate_NotBefore cert) <= Time_wall now
          <= Time_wall (Certificate_NotAfter cert)
        <-> In EvSystemCertPool evs).
Proof.
  intros now Hnb Hna.
  assert (Hbefore :
            Time_Before now (Certificate_NotBefore cert)
            = (Time_wall now <? Time_wall (Certificate_NotBefore cert))).
  { unfold Time_Before. rewrite Hnb. now destruct (Time_mono now). }
  assert (Hafter :
            Time_After now (Certificate_NotAfter cert)
            = (Time_wall (Certificate_NotAfter cert) <? Time_wall now)).
  { unfold Time_After. rewrite Hna. now destruct (Time_mono now). }
  rewrite certInfo_run. cbv zeta. fold now. rewrite Hbefore, Hafter.
  destruct (Time_wall now <? Time_wall (Certificate_NotBefore cert)) eqn:Hb.
  { apply Z.ltb_lt in Hb. eexists _, _. split; [reflexivity|]. simpl.
    split; [tauto|]. split; [split; [lia|discriminate]|].
    split; [lia|]. intros [|[]]; discriminate. }
  apply Z.ltb_ge in Hb.
  destruct (Time_wall (Certificate_NotAfter cert) <? Time_wall now) eqn:Ha.
  { apply Z.ltb_lt in Ha. eexists _, _. split; [reflexivity|]. simpl.
    split; [split; [lia|discriminate]|]. split; [tauto|].
    split; [lia|]. intros [|[]]; discriminate. }
  apply Z.ltb_ge in Ha.
  destruct (Env_SystemCertPool E) as [roots|err].
  - destruct (Env_Verify E cert _);
      eexists _, _; (split; [reflexivity|]); simpl;
      (split; [split; [lia|discriminate]|]);
      (split; [split; [lia|discriminate]|]);
      (split; [auto|lia]).
  - eexists _, _. split; [reflexivity|]. simpl.
    split; [split; [lia|discriminate]|].
    split; [split; [lia|discriminate]|].
    split; [auto|lia].
Qed.

Lemma certInfo_window_inclusive_witness :
  exists ci evs,
    @certInfo Ref.lib
      {| Env_clock := fun _ => Examples.at_second 1720000000;
         Env_Do := Env_Do Examples.env_plain;
         Env_SystemCertPool := inl [Examples.root];
         Env_Verify := Examples.verify |}
      (Some {| ConnectionState_PeerCertificates := [Examples.leaf] |})
      "example.com" World_init
    = (Returned (Some ci), advance World_init 1 evs)
    /\ In EvSystemCertPool evs.
Proof.
  destruct (certInfo_window_inclusive Ref.lib
              {| Env_clock := fun _ => Examples.at_second 1720000000;
                 Env_Do := Env_Do Examples.env_plain;
                 Env_SystemCertPool := inl [Examples.root];
                 Env_Verify := Examples.verify |}
              Examples.leaf [] "example.com" World_init eq_refl eq_refl)
    as (ci & evs & Hrun & _ & _ & Hwindow).
  exists ci, evs. split; [exact Hrun|]. apply Hwindow.
  vm_compute. split; discriminate.
Defined.

(** * Properties of the report *)

Lemma count_lines_String c s :
  count_lines (String c s)
  = ((if decide (c = ascii_of_nat 10) then 1 else 0) + count_lines s)%nat.
Proof.
  unfold count_lines. cbn [list_ascii_of_string]. rewrite filter_cons.
  now destruct (decide (c = ascii_of_nat 10)).
Qed.

Lemma count_lines_app a b :
  count_lines (a +:+ b) = (count_lines a + count_lines b)%nat.
Proof.
  induction a as [|c a IH]; [reflexivity|].
  change (String c a +:+ b) with (String c (a +:+ b)).
  rewrite !count_lines_String, IH. lia.
Qed.

Lemma pretty_N_char_no_line_feed n : pretty_N_char n <> ascii_of_nat 10.
Proof. unfold pretty_N_char. repeat case_match; discriminate. Qed.

Lemma count_lines_pretty_N_go x s :
  count_lines (pretty_N_go x s) = count_lines s.
Proof.
  revert s. induction (N.lt_wf_0 x) as [x _ IH]. intros s.
  destruct (decide (0 < x)%N) as [Hpos|Hzero].
  - rewrite pretty_N_go_step by exact Hpos.
    rewrite IH by (apply N.div_lt; [exact Hpos|reflexivity]).
    rewrite count_lines_String.
    destruct (decide (pretty_N_char (x `mod` 10) = ascii_of_nat 10))
      as [Heq|_]; [|reflexivity].
    now destruct (pretty_N_char_no_line_feed _ Heq).
  - assert (x = 0%N) as -> by lia. now rewrite pretty_N_go_0.
Qed.

(** [strconv.Itoa] prints on one line. *)
Lemma count_lines_Itoa i : count_lines (strconv_Itoa i) = 0%nat.
Proof.
  unfold strconv_Itoa, pretty, pretty_Z.
  destruct i as [|p|p]; [reflexivity| |].
  - unfold pretty, pretty_positive, pretty, pretty_N.
    destruct (decide (N.pos p = 0%N)); [reflexivity|].
    apply count_lines_pretty_N_go.
  - rewrite count_lines_app.
    unfold pretty, pretty_positive, pretty, pretty_N.
    destruct (decide (N.pos p = 0%N)); [reflexivity|].
    rewrite count_lines_pretty_N_go. reflexivity.
Qed.

Lemma WriteStrings_app b l1 l2 :
  Builder_WriteStrings b (l1 ++ l2)
  = Builder_WriteStrings (Builder_WriteStrings b l1) l2.
Proof. unfold Builder_WriteStrings. apply fold_left_app. Qed.

(** The lines a list of writes adds to a builder. *)
Lemma count_lines_WriteStrings l b :
  count_lines (Builder_WriteStrings b l)
  = (count_lines b + list_sum (map count_lines l))%nat.
Proof.
  unfold Builder_WriteStrings. revert b.
  induction l as [|s l IH]; intros b; simpl; [lia|].
  rewrite IH. unfold Builder_WriteString.
  rewrite count_lines_app. lia.
Qed.

Lemma count_lines_FormatBool b : count_lines (strconv_FormatBool b) = 0%nat.
Proof. now destruct b. Qed.

(** X15: the report of a result is a fixed number of lines.  When the URL,
    the status phrase, the formatted times, the duration and the
    certificate's message are each on one line, the report of a result
    without certificate details has five lines, and with certificate
    details eight lines, or nine when the certificate has a message. *)
Theorem CheckResult_String_line_count (F : FmtLib) (r : CheckResult) :
  single_line (CheckResult_URL r) ->
  single_line (http_StatusText (CheckResult_StatusCode r)) ->
  single_line (Time_Format (CheckResult_Start r) time_DateTime) ->
  single_line (Time_Format (CheckResult_End r) time_DateTime) ->
  single_line
    (Duration_String (Time_Sub (CheckResult_End r) (CheckResult_Start r))) ->
  (forall ci, CheckResult_CertInfo r = Some ci ->
              single_line (CertInfo_ErrorMsg ci)
              /\ single_line (Time_Format (CertInfo_ValidFrom ci)
                                time_DateTime)
              /\ single_line (Time_Format (CertInfo_ValidTo ci)
                                time_DateTime)) ->
  exists report,
    CheckResult_String (Some r) = Returned report
    /\ count_lines report
       = match CheckResult_CertInfo r with
         | None => 5%nat
         | Some ci =>
             if decide (CertInfo_ErrorMsg ci = "") then 8%nat else 9%nat
         end.
Proof.
  unfold single_line. intros Hurl Htext Hstart Hend Hdur Hcert.
  eexists. split; [reflexivity|].
  assert (Hgeneral :
            count_lines (Builder_WriteStrings "" (CheckResult_writes r))
            = 5%nat).
  { rewrite count_lines_WriteStrings. unfold CheckResult_writes.
    cbn [map list_sum].
    rewrite Hurl, Htext, Hstart, Hend, Hdur, count_lines_Itoa.
    reflexivity. }
  destruct (CheckResult_CertInfo r) as [ci|] eqn:Hci; [|exact Hgeneral].
  destruct (Hcert ci eq_refl) as (Hmsg & Hfrom & Hto).
  rewrite count_lines_WriteStrings, Hgeneral. unfold CertInfo_writes.
  rewrite !map_app, !list_sum_app. cbn [map list_sum].
  rewrite Hfrom, Hto, count_lines_FormatBool.
  destruct (decide (CertInfo_ErrorMsg ci <> "")) as [Hne|He];
    destruct (decide (CertInfo_ErrorMsg ci = "")) as [He'|Hne'];
    try contradiction.
  - cbn [map list_sum]. rewrite Hmsg. reflexivity.
  - reflexivity.
Qed.


Lemma CheckResult_String_line_count_witness :
  exists report,
    @CheckResult_String RefFmt.lib
      (Some {| CheckResult_URL := "https://example.com";
               CheckResult_StatusCode := 200;
               CheckResult_Start := Examples.clock 1;
               CheckResult_End := Examples.clock 2;
               CheckResult_CertInfo :=
                 Some (CertInfo_invalid (@leaf_info Ref.lib Examples.leaf)
                         "certificate has expired") |})
    = Returned report
    /\ count_lines report = 9%nat.
Proof.
  destruct (CheckResult_String_line_count RefFmt.lib
           {| CheckResult_URL := "https://example.com";
              CheckResult_StatusCode := 200;
              CheckResult_Start := Examples.clock 1;
              CheckResult_End := Examples.clock 2;
              CheckResult_CertInfo :=
                Some (CertInfo_invalid (@leaf_info Ref.lib Examples.leaf)
                        "certificate has expired") |})
    as (report & Hreport & Hcount).
  - vm_compute. reflexivity.
  - vm_compute. reflexivity.
  - vm_compute. reflexivity.
  - vm_compute. reflexivity.
  - vm_compute. reflexivity.
  - intros ci [= <-]. repeat split; vm_compute; reflexivity.
  - exists report. split; [exact Hreport|]. rewrite Hcount. reflexivity.
Defined.

(** The certificate details of a result of Check come from certInfo: they
    carry a message exactly when they are invalid. *)
Lemma Monitor_Check_CertInfo_message `{GoLib} (E : Env) m ctx w r w' ci :
  Monitor_Check E m ctx w = (Returned (Some r, None), w') ->
  CheckResult_CertInfo r = Some ci ->
  CertInfo_IsValid ci = false <-> CertInfo_ErrorMsg ci <> "".
Proof.
  rewrite Monitor_Check_run. cbv zeta.
  destruct (http_NewRequestWithContext _ _ _) as [req0|err]; [|discriminate].
  destruct (Env_Do E _ _) as [resp|err]; [|discriminate].
  destruct (Body_err (Response_Body resp)); [discriminate|].
  destruct (Response_TLS resp) as [[[|cert rest]]|].
  - intros [= <- <-]. discriminate.
  - match goal with
    | |- context [certInfo E _ ?host ?w1] =>
        destruct (certInfo_events E cert rest host w1)
          as (ci' & evs & -> & _ & _ & Hmsg)
    end.
    intros [= <- <-] [= <-]. exact Hmsg.
  - intros [= <- <-]. discriminate.
Qed.

(** X16: in the report of a result of Check the certificate section shows
    an Error line exactly when the certificate is invalid: for a valid
    certificate the section is the heading, "Valid: true" and the validity
    window; for an invalid one it is the heading, "Valid: false", the Error
    line with the message of certInfo, and the validity window. *)
Theorem Check_report_error_line (L : GoLib) (F : FmtLib) (E : Env)
    (m : Monitor) (ctx : Context) (w w' : World) (r : CheckResult)
    (ci : CertInfo) :
  Monitor_Check E m ctx w = (Returned (Some r, None), w') ->
  CheckResult_CertInfo r = Some ci ->
  let window :=
    ["  From "; Time_Format (CertInfo_ValidFrom ci) time_DateTime;
     " to "; Time_Format (CertInfo_ValidTo ci) time_DateTime; nl] in
  (CertInfo_IsValid ci = true
   /\ CertInfo_writes ci
      = ["Certificate Info:"; nl; "  Valid: "; "true"; nl] ++ window)
  \/ (CertInfo_IsValid ci = false
      /\ CertInfo_ErrorMsg ci <> ""
      /\ CertInfo_writes ci
         = ["Certificate Info:"; nl; "  Valid: "; "false"; nl;
            "  Error: "; CertInfo_ErrorMsg ci; nl] ++ window).
Proof.
  intros Hrun Hci window.
  pose proof (Monitor_Check_CertInfo_message E _ _ _ _ _ _ Hrun Hci) as Hmsg.
  unfold CertInfo_writes. fold window.
  destruct (CertInfo_IsValid ci) eqn:Hvalid.
  - left. split; [reflexivity|].
    destruct (decide (CertInfo_ErrorMsg ci <> "")) as [Hne|_];
      [|reflexivity].
    apply Hmsg in Hne. discriminate.
  - right. split; [reflexivity|].
    assert (Hne : CertInfo_ErrorMsg ci <> "") by now apply Hmsg.
    split; [exact Hne|].
    destruct (decide (CertInfo_ErrorMsg ci <> "")); [reflexivity|contradiction].
Qed.

Lemma Check_report_error_line_witness :
  exists r ci w',
    @Monitor_Check Ref.lib (Examples.env_tls [Examples.leaf_expired])
      Examples.monitor_defaults context_Background World_init
    = (Returned (Some r, None), w')
    /\ CheckResult_CertInfo r = Some ci
    /\ CertInfo_IsValid ci = false
    /\ CertInfo_ErrorMsg ci <> "".
Proof.
  destruct (@Monitor_Check Ref.lib (Examples.env_tls [Examples.leaf_expired])
              Examples.monitor_defaults context_Background World_init)
    as [o w'] eqn:Hrun.
  assert (Hshape : exists r ci, o = Returned (Some r, None)
                     /\ CheckResult_CertInfo r = Some ci
                     /\ CertInfo_IsValid ci = false).
  { pose proof Hrun as Hval. vm_compute in Hval. injection Hval as <- <-.
    eexists _, _. repeat split. }
  destruct Hshape as (r & ci & -> & Hci & Hinvalid).
  exists r, ci, w'. split; [reflexivity|]. split; [exact Hci|].
  destruct (Check_report_error_line Ref.lib RefFmt.lib _ _ _ _ _ _ _
              Hrun Hci) as [(Hvalid & _)|(_ & Hne & _)].
  - rewrite Hinvalid in Hvalid. discriminate.
  - split; assumption.
Defined.

(** * Properties of the command *)

Lemma main_started_Some m monitors :
  main_started (Some m :: monitors) = m :: main_started monitors.
Proof. reflexivity. Qed.

Lemma main_started_None monitors :
  main_started (None :: monitors) = main_started monitors.
Proof. reflexivity. Qed.

Section CommandFacts.
Context `{GoLib}.

Lemma main_build_cons url urls :
  main_build (url :: urls)
  = (fst (NewMonitor (main_config url)) :: fst (main_build urls),
     match snd (NewMonitor (main_config url)) with
     | Some err => [error_Error err]
     | None => []
     end ++ snd (main_build urls)).
Proof.
  cbn [main_build].
  destruct (NewMonitor (main_config url)) as [m err].
  now destruct (main_build urls).
Qed.

(** NewMonitor returns a monitor or an error, never both or neither. *)
Lemma NewMonitor_all_or_nothing config :
  all_or_nothing (NewMonitor config).
Proof.
  destruct (config_rejected_dec config) as [Hr|Hok].
  - right. now apply NewMonitor_rejects.
  - left. destruct (NewMonitor_accepts _ Hok) as (u & m & _ & Hnew & _).
    eauto.
Qed.
End CommandFacts.

(** X17: the first loop of the command keeps the slice of monitors aligned
    with the list of URLs: the slice is as long as the list, its entry for a
    URL is what NewMonitor returned for it (nil when the URL was rejected),
    and every URL is accounted for exactly once, by a printed error or by a
    started check. *)
Theorem main_build_aligned (L : GoLib) (urls : list string) :
  length (fst (main_build urls)) = length urls
  /\ (forall (i : nat) (url : string),
         urls !! i = Some url ->
         fst (main_build urls) !! i
         = Some (fst (NewMonitor (main_config url))))
  /\ (length (snd (main_build urls))
      + length (main_started (fst (main_build urls))))%nat
     = length urls.
Proof.
  induction urls as [|url urls (IHlen & IHnth & IHsum)].
  - repeat split. intros i url Hi. discriminate.
  - rewrite main_build_cons. cbn [fst snd length].
    split; [now rewrite IHlen|]. split.
    + intros [|i] url' Hi; simpl in Hi.
      * injection Hi as <-. reflexivity.
      * simpl. now apply IHnth.
    + destruct (NewMonitor_all_or_nothing (main_config url))
        as [(m & ->)|(err & ->)]; cbn [fst snd].
      * rewrite main_started_Some. simpl. lia.
      * rewrite main_started_None. simpl. lia.
Qed.

(** X18: every check the command starts runs on a monitor for one of the
    listed URLs, built with the method GET, a timeout of ten seconds, the
    accepted status codes 200 and 201, a transport that does not verify the
    server certificate, and the default redirect policy. *)
Theorem main_started_monitor (L : GoLib) (urls : list string) (m : Monitor) :
  In m (main_started (fst (main_build urls))) ->
  exists url u,
    In url urls
    /\ url_Parse url = inl u
    /\ Config_URL (Monitor_config m) = URL_String u
    /\ Config_Method (Monitor_config m) = "GET"
    /\ Client_Timeout (Monitor_client m) = 10 * time_Second
    /\ Config_UpStatusCodes (Monitor_config m) = [200; 201]
    /\ TLSConfig_InsecureSkipVerify
         (Transport_TLSClientConfig (Client_Transport (Monitor_client m)))
       = true
    /\ Client_CheckRedirect (Monitor_client m) = None.
Proof.
  induction urls as [|url urls IH].
  - intros [].
  - rewrite main_build_cons. cbn [fst].
    destruct (NewMonitor (main_config url)) as [[m'|] err] eqn:Hnew;
      cbn [fst].
    + rewrite main_started_Some. intros [<-|Hin].
      * destruct (NewMonitor_all_or_nothing (main_config url))
          as [(m0 & Hm0)|(err0 & Herr0)]; [|congruence].
        assert (Hnew' : NewMonitor (main_config url) = (Some m', None))
          by congruence.
        pose proof (NewMonitor_success_inv _ _ Hnew') as Hok.
        destruct (NewMonitor_accepts _ Hok)
          as (u & m1 & Hp & Hnew1 & Hurl & Hmeth & _ & Ht & Hcodes).
        rewrite Hnew' in Hnew1. injection Hnew1 as <-.
        exists url, u. split; [now left|]. split; [exact Hp|].
        split; [exact Hurl|]. split; [exact Hmeth|].
        split; [exact Ht|]. split; [exact Hcodes|].
        unfold NewMonitor in Hnew'. simpl in Hnew'.
        destruct (sanitizeURL url) as [v [e|]]; [discriminate|].
        injection Hnew' as <-. split; reflexivity.
      * destruct (IH Hin) as (url' & u & Hin' & Hrest).
        exists url', u. split; [now right|exact Hrest].
    + rewrite main_started_None. intros Hin.
      destruct (IH Hin) as (url' & u & Hin' & Hrest).
      exists url', u. split; [now right|exact Hrest].
Qed.

Lemma main_started_monitor_witness :
  exists m url u,
    In m (main_started
            (fst (@main_build Ref.lib
                    ["https://bn67.net"; "https://expired.badssl.com/";
                     "https://wrong.host.badssl.com/";
                     "http://example.com"])))
    /\ In url ["https://bn67.net"; "https://expired.badssl.com/";
               "https://wrong.host.badssl.com/"; "http://example.com"]
    /\ @url_Parse Ref.lib url = inl u
    /\ Config_URL (Monitor_config m) = @URL_String Ref.lib u.
Proof.
  assert (Hin : exists m,
             In m (main_started
                     (fst (@main_build Ref.lib
                             ["https://bn67.net";
                              "https://expired.badssl.com/";
                              "https://wrong.host.badssl.com/";
                              "http://example.com"])))).
  { eexists. vm_compute. left. reflexivity. }
  destruct Hin as (m & Hin).
  destruct (main_started_monitor Ref.lib _ m Hin)
    as (url & u & Hurl & Hp & Hs & _).
  exists m, url, u. repeat split; assumption.
Defined.

(** X19: a check started by the command never panics and calls
    fmt.Println exactly once: standard output gains one text, ended by a
    line feed, which is the text of the error when the check failed and
    otherwise the report that String gives for the result, a result that is
    then not nil; the report itself has several lines. *)
Theorem main_task_one_Println (L : GoLib) (F : FmtLib) (E : Env)
    (m : Monitor) (w : World) (out : Stdout) :
  exists res w' text,
    Monitor_Check E m context_Background w = (Returned res, w')
    /\ main_task E m w out = (Returned tt, w', out ++ [text +:+ nl])
    /\ ((exists err, res = (None, Some err) /\ text = error_Error err)
        \/ (exists r, res = (Some r, None)
              /\ CheckResult_String (Some r) = Returned text)).
Proof.
  destruct (Monitor_Check_failures L E m context_Background w)
    as (res & w' & Hrun & Haon & _).
  unfold main_task, fmt_Println. rewrite Hrun.
  destruct Haon as [(r & ->)|(err & ->)].
  - eexists _, _, _. split; [reflexivity|]. split; [reflexivity|].
    right. exists r. split; reflexivity.
  - eexists _, _, _. split; [reflexivity|]. split; [reflexivity|].
    left. eauto.
Qed.
